(** * Pairing Method engine: a shallow embedding and its properties

    Embeds [assets/js/engine.js] (the 7-rule engine behind
    [calculatePairing] and [scorePairing]) and the older 5-rule engine that
    is stored next to [scripts/test-engine.mjs].

    Modelling choices, all forced by the JavaScript the engine is written in:
    - a JS number is [NaN], an infinity or a finite rational.  Every finite
      double is a rational, and the engine only applies [Number.isNaN],
      [Math.floor], [Math.min], [Math.max] and comparisons to raw numbers, all
      exact on doubles; it does arithmetic only on small integers, where
      doubles are exact too.  The two zeros are identified (the engine never
      divides and never calls [Object.is]);
    - a raw record is a JSON-like value.  The engine can raise in two ways,
      both a [TypeError]: by reading a property of [null] or [undefined],
      and by converting to a number or a string an object that has an own
      [toString] key (whose value, coming from JSON, is not callable);
    - the conversion of strings to numbers, of numbers to strings and of
      strings to lower case belongs to the host and is a parameter ([Host]);
    - a string is the sequence of its bytes. *)

From Stdlib Require Import ZArith QArith Qround Qabs Bool List String Ascii Lia Lqa.
From Stdlib Require Import Sorted Permutation.
Import ListNotations.
Open Scope string_scope.
Open Scope list_scope.
Open Scope Z_scope.

(** ** JavaScript numbers *)

Inductive num : Type :=
| NaN
| PInf
| NInf
| Fin (q : Q).

(** The number denoted by an integer literal. *)
Definition Int (z : Z) : num := Fin (inject_Z z).

Module JS.

Definition Number_isNaN (n : num) : bool :=
  match n with NaN => true | _ => false end.

Definition neg (n : num) : num :=
  match n with
  | NaN => NaN
  | PInf => NInf
  | NInf => PInf
  | Fin q => Fin (Qopp q)
  end.

(** [a + b] *)
Definition add (a b : num) : num :=
  match a, b with
  | NaN, _ | _, NaN => NaN
  | PInf, NInf | NInf, PInf => NaN
  | PInf, _ | _, PInf => PInf
  | NInf, _ | _, NInf => NInf
  | Fin p, Fin q => Fin (Qplus p q)
  end.

(** [a - b] *)
Definition sub (a b : num) : num := add a (neg b).

(** [a < b]; every comparison with [NaN] is false. *)
Definition lt (a b : num) : bool :=
  match a, b with
  | NaN, _ | _, NaN => false
  | _, NInf => false
  | NInf, _ => true
  | PInf, _ => false
  | _, PInf => true
  | Fin p, Fin q => negb (Qle_bool q p)
  end.

(** [a <= b] *)
Definition le (a b : num) : bool :=
  match a, b with
  | NaN, _ | _, NaN => false
  | NInf, _ => true
  | _, PInf => true
  | _, NInf => false
  | PInf, _ => false
  | Fin p, Fin q => Qle_bool p q
  end.

(** [a === b] on numbers: [NaN] equals nothing. *)
Definition eq (a b : num) : bool :=
  match a, b with
  | PInf, PInf | NInf, NInf => true
  | Fin p, Fin q => Qeq_bool p q
  | _, _ => false
  end.

(** [a > b] and [a >= b] *)
Definition gt (a b : num) : bool := lt b a.
Definition ge (a b : num) : bool := le b a.

Definition Math_abs (n : num) : num :=
  match n with
  | NaN => NaN
  | PInf | NInf => PInf
  | Fin q => Fin (Qabs q)
  end.

Definition Math_floor (n : num) : num :=
  match n with
  | Fin q => Int (Qfloor q)
  | _ => n
  end.

(** [Math.max(a, b)] and [Math.min(a, b)]: [NaN] if either argument is. *)
Definition Math_max (a b : num) : num :=
  match a, b with
  | NaN, _ | _, NaN => NaN
  | _, _ => if lt a b then b else a
  end.

Definition Math_min (a b : num) : num :=
  match a, b with
  | NaN, _ | _, NaN => NaN
  | _, _ => if lt b a then b else a
  end.

End JS.

(** ** Raw values *)

#[local] Set Warnings "-register-all".

Inductive value : Type :=
| VUndefined
| VNull
| VBool (b : bool)
| VNum (n : num)
| VStr (s : string)
| VArr (l : list value)
| VObj (fields : list (string * value)).

(** What the host decides: [StringToNumber] is the conversion [Number]
    applies to a string, [NumberToString] the one [String] applies to a
    number, [toLowerCase] is [String.prototype.toLowerCase], which leaves
    the empty string empty. *)
Class Host : Type := {
  StringToNumber : string -> num;
  NumberToString : num -> string;
  toLowerCase : string -> string;
  toLowerCase_empty : toLowerCase "" = ""
}.

(** Exceptions.  The engine has no [throw] of its own; what it can provoke
    is a [TypeError], from a property read on [null] or [undefined] or from
    the conversion of an object that cannot be made a primitive. *)
Inductive result (A : Type) : Type :=
| Ok (a : A)
| TypeError.
Arguments Ok {A} a.
Arguments TypeError {A}.

Definition bind {A B : Type} (r : result A) (k : A -> result B) : result B :=
  match r with
  | Ok a => k a
  | TypeError => TypeError
  end.

Notation "x <- c ;; k" := (bind c (fun x => k))
  (at level 61, c at next level, right associativity).

(** [l.map(f)] when [f] may throw: the first exception aborts the loop. *)
Fixpoint mapM {A B : Type} (f : A -> result B) (l : list A) : result (list B) :=
  match l with
  | [] => Ok []
  | x :: l' => y <- f x ;; ys <- mapM f l' ;; Ok (y :: ys)
  end.

Module Value.

(** [typeof v === "string"] *)
Definition is_string (v : value) : bool :=
  match v with VStr _ => true | _ => false end.

(** [Array.isArray(v)] *)
Definition isArray (v : value) : bool :=
  match v with VArr _ => true | _ => false end.

(** The truthiness of a value, as [!v], [||] and [&&] use it. *)
Definition ToBoolean (v : value) : bool :=
  match v with
  | VUndefined | VNull => false
  | VBool b => b
  | VNum NaN => false
  | VNum (Fin q) => negb (Qeq_bool q 0)
  | VNum _ => true
  | VStr s => negb (String.eqb s "")
  | VArr _ | VObj _ => true
  end.

(** [a || b] *)
Definition or (a b : value) : value := if ToBoolean a then a else b.

Definition nullish (v : value) : bool :=
  match v with VUndefined | VNull => true | _ => false end.

(** [a ?? b] *)
Definition coalesce (a b : value) : value := if nullish a then b else a.

(** The string a value is, once [typeof v === "string"] has been checked. *)
Definition str (v : value) : string :=
  match v with VStr s => s | _ => "" end.

(** The elements of an array, once [Array.isArray(v)] has been checked. *)
Definition elements (v : value) : list value :=
  match v with VArr l => l | _ => [] end.

Fixpoint lookup (k : string) (fields : list (string * value)) : value :=
  match fields with
  | [] => VUndefined
  | (k', v) :: rest => if String.eqb k k' then v else lookup k rest
  end.

(** [v.k] on a value that is neither [null] nor [undefined], for the
    property names the engine reads.  None of them is a property of a
    boolean, a number, a string or an array, so on those the read gives
    [undefined]. *)
Definition prop (v : value) (k : string) : value :=
  match v with
  | VObj fields => lookup k fields
  | _ => VUndefined
  end.

(** [v.k]: a [TypeError] on [null] and [undefined]. *)
Definition get (v : value) (k : string) : result value :=
  if nullish v then TypeError else Ok (prop v k).

(** Whether an object has an own property [k]. *)
Definition has_key (k : string) (fields : list (string * value)) : bool :=
  existsb (fun kv => String.eqb k (fst kv)) fields.

Section WithHost.
Context {host : Host}.

(** [String(v)].  An array joins its elements with commas, [null] and
    [undefined] elements giving the empty string.  An object is made a
    primitive through its [toString] and [valueOf]: the inherited [toString]
    answers "[object Object]"; an own [toString] is not callable, the
    inherited [valueOf] answers the object itself and an own one is not
    callable either, so the conversion throws. *)
Fixpoint ToString (v : value) : result string :=
  match v with
  | VUndefined => Ok "undefined"
  | VNull => Ok "null"
  | VBool true => Ok "true"
  | VBool false => Ok "false"
  | VNum n => Ok (NumberToString n)
  | VStr s => Ok s
  | VArr l =>
      let elem (x : value) : result string :=
        match x with
        | VUndefined | VNull => Ok ""
        | _ => ToString x
        end in
      (fix join (l : list value) : result string :=
         match l with
         | [] => Ok ""
         | [x] => elem x
         | x :: l' =>
             s <- elem x ;; rest <- join l' ;; Ok (s ++ "," ++ rest)%string
         end) l
  | VObj fields =>
      if has_key "toString" fields then TypeError else Ok "[object Object]"
  end.

(** [Number(v)].  An array or an object is first made a primitive: its
    [valueOf] does not give one, so it goes through [String(v)] and throws
    where that throws. *)
Definition Number (v : value) : result num :=
  match v with
  | VUndefined => Ok NaN
  | VNull => Ok (Int 0)
  | VBool true => Ok (Int 1)
  | VBool false => Ok (Int 0)
  | VNum n => Ok n
  | VStr s => Ok (StringToNumber s)
  | VArr _ | VObj _ => s <- ToString v ;; Ok (StringToNumber s)
  end.

End WithHost.

End Value.

(** ** Strings *)

Module Str.

Definition lower_char (c : ascii) : ascii :=
  let n := nat_of_ascii c in
  if (Nat.leb 65 n && Nat.leb n 90)%bool then ascii_of_nat (n + 32) else c.

(** What [s.toLowerCase()] is on a string of ASCII characters. *)
Fixpoint ascii_lower (s : string) : string :=
  match s with
  | EmptyString => EmptyString
  | String c s' => String (lower_char c) (ascii_lower s')
  end.

(** [s.includes(t)]: [t] occurs in [s] as a substring. *)
Fixpoint includes (s t : string) : bool :=
  (String.prefix t s ||
   match s with
   | EmptyString => false
   | String _ s' => includes s' t
   end)%bool.

End Str.

(** ** [Array.prototype.sort]

    The host sorts with a comparator [comparefn]: [x] is placed after [y]
    exactly when [comparefn(x, y) > 0] (a [NaN] answer counts as [0]), and
    the sort is stable (ECMAScript 2019).  For a comparator that orders
    consistently this fixes the sorted array; insertion from the right
    computes it. *)

Module Arr.
Section Sort.
Context {A : Type} (comparefn : A -> A -> num).

Definition after (x y : A) : bool := JS.gt (comparefn x y) (Int 0).

Fixpoint insert (x : A) (l : list A) : list A :=
  match l with
  | [] => [x]
  | y :: l' => if after x y then y :: insert x l' else x :: l
  end.

Fixpoint sort (l : list A) : list A :=
  match l with
  | [] => []
  | x :: l' => insert x (sort l')
  end.

(** [l.slice(0, n)] *)
Definition slice0 (n : nat) (l : list A) : list A := firstn n l.

End Sort.
End Arr.

(** ** Data model of [engine.js] *)

(** Normalized food attributes. *)
Module Food.
Record t : Type := {
  name : string;
  protein_intensity : num;
  fat_level : num;
  acidity : num;
  sweetness : num;
  spice_heat : num;
  umami : num
}.
End Food.

(** Normalized wine attributes. *)
Module Wine.
Record t : Type := {
  name : string;
  body : num;
  tannin : num;
  acidity : num;
  alcohol : num;
  sweetness : num;
  aromatic_intensity : num;
  flavor_profile : list value
}.
End Wine.

(** [{ delta, reasoning }], the outcome of an additive rule. *)
Module Rule.
Record t : Type := { delta : num; reasoning : list string }.
End Rule.

(** [{ cap, reasoning }], the outcome of the sweetness rule; [cap] is
    [null] ([None]) when the rule does not fire. *)
Module Cap.
Record t : Type := { cap : option num; reasoning : list string }.
End Cap.

(** [{ name, score, reasoning }] *)
Module PairingResult.
Record t : Type := { name : value; score : num; reasoning : list string }.
End PairingResult.

(** ** [assets/js/engine.js] *)

Module Engine.
Import Value.
Section WithHost.
Context {host : Host}.

Definition BASE_SCORE : num := Int 50.

(** [clamp(v, min = 0, max = 5)] *)
Definition clamp (v : value) (min max : num) : result num :=
  n <- Number v ;;
  if JS.Number_isNaN n then Ok min
  else Ok (JS.Math_max min (JS.Math_min max (JS.Math_floor n))).

(** The defaults of [clamp]; every call in the engine relies on them. *)
Definition clamp_min : num := Int 0.
Definition clamp_max : num := Int 5.

Definition normalizeFood (food : value) : result Food.t :=
  name <- get food "name" ;;
  protein_intensity_raw <- get food "protein_intensity" ;;
  protein_intensity <- clamp protein_intensity_raw clamp_min clamp_max ;;
  fat_level_raw <- get food "fat_level" ;;
  fat_level <- clamp fat_level_raw clamp_min clamp_max ;;
  acidity_raw <- get food "acidity" ;;
  acidity <- clamp acidity_raw clamp_min clamp_max ;;
  sweetness_raw <- get food "sweetness" ;;
  sweetness <- clamp sweetness_raw clamp_min clamp_max ;;
  spice_heat_raw <- get food "spice_heat" ;;
  spice_heat <- clamp spice_heat_raw clamp_min clamp_max ;;
  umami_raw <- get food "umami" ;;
  umami <- clamp umami_raw clamp_min clamp_max ;;
  Ok {| Food.name := if is_string name then str name else "";
        Food.protein_intensity := protein_intensity;
        Food.fat_level := fat_level;
        Food.acidity := acidity;
        Food.sweetness := sweetness;
        Food.spice_heat := spice_heat;
        Food.umami := umami |}.

Definition normalizeWine (wine : value) : result Wine.t :=
  alcohol <- get wine "alcohol" ;;
  alc <- Number alcohol ;;
  aromatic_intensity <- get wine "aromatic_intensity" ;;
  arom <- Number aromatic_intensity ;;
  name <- get wine "name" ;;
  body_raw <- get wine "body" ;;
  body <- clamp body_raw clamp_min clamp_max ;;
  tannin_raw <- get wine "tannin" ;;
  tannin <- clamp tannin_raw clamp_min clamp_max ;;
  acidity_raw <- get wine "acidity" ;;
  acidity <- clamp acidity_raw clamp_min clamp_max ;;
  sweetness_raw <- get wine "sweetness" ;;
  sweetness <- clamp sweetness_raw clamp_min clamp_max ;;
  flavor_profile <- get wine "flavor_profile" ;;
  Ok {| Wine.name := if is_string name then str name else "";
        Wine.body := body;
        Wine.tannin := tannin;
        Wine.acidity := acidity;
        Wine.alcohol :=
          if JS.Number_isNaN alc then Int 3
          else JS.Math_max (Int 1) (JS.Math_min (Int 5) (JS.Math_floor alc));
        Wine.sweetness := sweetness;
        Wine.aromatic_intensity :=
          if JS.Number_isNaN arom then Int 2
          else JS.Math_max (Int 1) (JS.Math_min (Int 5) (JS.Math_floor arom));
        Wine.flavor_profile :=
          if isArray flavor_profile then elements flavor_profile else [] |}.

(** *** The rules *)

Definition applyIntensityHarmony (f : Food.t) (w : Wine.t) : Rule.t :=
  let intensityDiff := JS.Math_abs (JS.sub (Food.protein_intensity f) (Wine.body w)) in
  if JS.le intensityDiff (Int 1) then
    {| Rule.delta := Int 15;
       Rule.reasoning := ["Wine body aligns with protein intensity."] |}
  else if JS.ge intensityDiff (Int 3) then
    {| Rule.delta := Int (-15);
       Rule.reasoning := ["Wine body misaligned with dish intensity."] |}
  else {| Rule.delta := Int 0; Rule.reasoning := [] |}.

Definition applyFatBalance (f : Food.t) (w : Wine.t) : Rule.t :=
  if JS.ge (Food.fat_level f) (Int 3)
     && (JS.ge (Wine.acidity w) (Int 3) || JS.ge (Wine.tannin w) (Int 3))
  then
    {| Rule.delta := Int 10;
       Rule.reasoning := ["Structure balances dish richness."] |}
  else if JS.ge (Food.fat_level f) (Int 4) && JS.le (Wine.acidity w) (Int 1) then
    {| Rule.delta := Int (-10);
       Rule.reasoning := ["Wine lacks acidity for rich texture."] |}
  else {| Rule.delta := Int 0; Rule.reasoning := [] |}.

Definition applySweetnessRule (f : Food.t) (w : Wine.t) : Cap.t :=
  if JS.lt (Wine.sweetness w) (Food.sweetness f) then
    {| Cap.cap := Some (Int 40);
       Cap.reasoning := ["Wine sweetness lower than dish sweetness."] |}
  else {| Cap.cap := None; Cap.reasoning := [] |}.

Definition applyAcidGap (f : Food.t) (w : Wine.t) : Rule.t :=
  if JS.lt (JS.add (Wine.acidity w) (Int 1)) (Food.acidity f) then
    {| Rule.delta := Int (-20);
       Rule.reasoning := ["Wine acidity too low for dish brightness."] |}
  else {| Rule.delta := Int 0; Rule.reasoning := [] |}.

Definition applySpiceLogic (f : Food.t) (w : Wine.t) : Rule.t :=
  let reasoning : list string := [] in
  let delta := Int 0 in
  let '(delta, reasoning) :=
    if JS.ge (Food.spice_heat f) (Int 3) && JS.ge (Wine.alcohol w) (Int 4)
    then (JS.sub delta (Int 15),
          reasoning ++ ["High alcohol clashes with spice heat."])
    else (delta, reasoning) in
  let '(delta, reasoning) :=
    if JS.ge (Food.spice_heat f) (Int 3) && JS.ge (Wine.tannin w) (Int 4)
    then (JS.sub delta (Int 10), reasoning ++ ["Tannins amplified by spice."])
    else (delta, reasoning) in
  let '(delta, reasoning) :=
    if JS.ge (Food.spice_heat f) (Int 3) && JS.ge (Wine.sweetness w) (Int 1)
    then (JS.add delta (Int 8), reasoning ++ ["Slight sweetness softens spice."])
    else (delta, reasoning) in
  {| Rule.delta := delta; Rule.reasoning := reasoning |}.

Definition applyUmamiSupport (f : Food.t) (w : Wine.t) : Rule.t :=
  if JS.ge (Food.umami f) (Int 3) && JS.ge (Wine.acidity w) (Int 3) then
    {| Rule.delta := Int 5;
       Rule.reasoning := ["Acidity supports savory depth."] |}
  else {| Rule.delta := Int 0; Rule.reasoning := [] |}.

Definition applyFlavorBridge (f : Food.t) (w : Wine.t) : Rule.t :=
  let foodName :=
    toLowerCase (str (Value.or (VStr (Food.name f)) (VStr ""))) in
  let hasMatch :=
    ToBoolean (VArr (Wine.flavor_profile w))
    && Nat.ltb 0 (List.length (Wine.flavor_profile w))
    && existsb
         (fun flavor =>
            is_string flavor
            && Str.includes foodName (toLowerCase (str flavor)))
         (Wine.flavor_profile w) in
  if hasMatch then
    {| Rule.delta := Int 5;
       Rule.reasoning := ["Flavor bridge between wine and dish."] |}
  else {| Rule.delta := Int 0; Rule.reasoning := [] |}.

(** *** Scoring one pair *)

Definition scoreOnePair (food wine : value) : result PairingResult.t :=
  f <- normalizeFood food ;;
  w <- normalizeWine wine ;;
  let reasoning : list string := [] in
  let score := BASE_SCORE in
  let intensity := applyIntensityHarmony f w in
  let score := JS.add score (Rule.delta intensity) in
  let reasoning := reasoning ++ Rule.reasoning intensity in
  let fat := applyFatBalance f w in
  let score := JS.add score (Rule.delta fat) in
  let reasoning := reasoning ++ Rule.reasoning fat in
  let acid := applyAcidGap f w in
  let score := JS.add score (Rule.delta acid) in
  let reasoning := reasoning ++ Rule.reasoning acid in
  let spice := applySpiceLogic f w in
  let score := JS.add score (Rule.delta spice) in
  let reasoning := reasoning ++ Rule.reasoning spice in
  let umami := applyUmamiSupport f w in
  let score := JS.add score (Rule.delta umami) in
  let reasoning := reasoning ++ Rule.reasoning umami in
  let flavor := applyFlavorBridge f w in
  let score := JS.add score (Rule.delta flavor) in
  let reasoning := reasoning ++ Rule.reasoning flavor in
  let score := JS.Math_max (Int 0) (JS.Math_min (Int 100) score) in
  let sweetness := applySweetnessRule f w in
  let reasoning := reasoning ++ Cap.reasoning sweetness in
  let score :=
    match Cap.cap sweetness with
    | Some cap => JS.Math_min score cap
    | None => score
    end in
  name <- (if ToBoolean (VStr (Wine.name w)) then Ok (VStr (Wine.name w))
           else raw <- get wine "name" ;; Ok (Value.or raw (VStr ""))) ;;
  Ok {| PairingResult.name := name;
        PairingResult.score := score;
        PairingResult.reasoning := reasoning |}.

(** The value of [score] in [scoreOnePair] once the six additive rules have
    been applied, and then once it has been clamped (before the cap). *)
Definition sumOfDeltas (f : Food.t) (w : Wine.t) : num :=
  JS.add (JS.add (JS.add (JS.add (JS.add (JS.add BASE_SCORE
    (Rule.delta (applyIntensityHarmony f w)))
    (Rule.delta (applyFatBalance f w)))
    (Rule.delta (applyAcidGap f w)))
    (Rule.delta (applySpiceLogic f w)))
    (Rule.delta (applyUmamiSupport f w)))
    (Rule.delta (applyFlavorBridge f w)).

Definition clampedSum (f : Food.t) (w : Wine.t) : num :=
  JS.Math_max (Int 0) (JS.Math_min (Int 100) (sumOfDeltas f w)).

(** *** Public API *)

Definition calculatePairing (food wines : value) : result (list PairingResult.t) :=
  if negb (ToBoolean food) || negb (isArray wines)
     || Nat.eqb (List.length (elements wines)) 0
  then Ok []
  else
    results <- mapM (fun wine => scoreOnePair food wine) (elements wines) ;;
    let results :=
      Arr.sort
        (fun a b => JS.sub (PairingResult.score b) (PairingResult.score a))
        results in
    Ok (Arr.slice0 3 results).

Definition scorePairing (food wine : value) : result PairingResult.t :=
  if negb (ToBoolean food) || negb (ToBoolean wine) then
    Ok {| PairingResult.name := VStr "";
          PairingResult.score := Int 0;
          PairingResult.reasoning := [] |}
  else scoreOnePair food wine.

End WithHost.
End Engine.

(** ** The 5-rule engine

    The second program stored in [scripts/test-engine.mjs]: its
    [scorePairing] returns the bare score, has no absent-argument guard, and
    knows neither Umami Support nor Flavor Bridge, nor the intensity
    penalty, the fat penalty and the sweetness bonus of Spice Logic. *)

Module Legacy.
Import Value.

Module Food.
Record t : Type := {
  protein_intensity : num;
  fat_level : num;
  acidity : num;
  sweetness : num;
  spice_heat : num;
  umami : num;
  texture_weight : num
}.
End Food.

Module Wine.
Record t : Type := {
  body : num;
  tannin : num;
  acidity : num;
  alcohol : num;
  sweetness : num;
  aromatic_intensity : num
}.
End Wine.

(** [{ wine, score }], an entry of the list the 5-rule [calculatePairing]
    returns. *)
Module Scored.
Record t : Type := { wine : value; score : num }.
End Scored.

Section WithHost.
Context {host : Host}.

Definition BASE_SCORE : num := Int 50.
Definition SWEETNESS_CAP : num := Int 40.
Definition ACID_GAP_PENALTY : num := Int 20.
Definition SPICE_ALCOHOL_PENALTY : num := Int 15.
Definition SPICE_TANNIN_PENALTY : num := Int 10.
Definition FAT_BALANCE_BONUS : num := Int 10.
Definition INTENSITY_HARMONY_BONUS : num := Int 15.

Definition clamp (v : value) (min max : num) : result num :=
  n <- Number v ;;
  if JS.Number_isNaN n then Ok min
  else Ok (JS.Math_max min (JS.Math_min max (JS.Math_floor n))).

Definition clamp_min : num := Int 0.
Definition clamp_max : num := Int 5.

Definition normalizeFood (food : value) : result Food.t :=
  protein_intensity_raw <- get food "protein_intensity" ;;
  protein_intensity <- clamp protein_intensity_raw clamp_min clamp_max ;;
  fat_level_raw <- get food "fat_level" ;;
  fat_level <- clamp fat_level_raw clamp_min clamp_max ;;
  acidity_raw <- get food "acidity" ;;
  acidity <- clamp acidity_raw clamp_min clamp_max ;;
  sweetness_raw <- get food "sweetness" ;;
  sweetness <- clamp sweetness_raw clamp_min clamp_max ;;
  spice_heat_raw <- get food "spice_heat" ;;
  spice_heat <- clamp spice_heat_raw clamp_min clamp_max ;;
  umami_raw <- get food "umami" ;;
  umami <- clamp umami_raw clamp_min clamp_max ;;
  texture <- get food "texture" ;;
  texture_raw <-
    (if nullish texture then get food "texture_weight" else Ok texture) ;;
  texture_weight <- clamp texture_raw clamp_min clamp_max ;;
  Ok {| Food.protein_intensity := protein_intensity;
        Food.fat_level := fat_level;
        Food.acidity := acidity;
        Food.sweetness := sweetness;
        Food.spice_heat := spice_heat;
        Food.umami := umami;
        Food.texture_weight := texture_weight |}.

Definition normalizeWine (wine : value) : result Wine.t :=
  alcohol <- get wine "alcohol" ;;
  alc <- Number alcohol ;;
  aromatic_intensity <- get wine "aromatic_intensity" ;;
  arom <- Number aromatic_intensity ;;
  body_raw <- get wine "body" ;;
  body <- clamp body_raw clamp_min clamp_max ;;
  tannin_raw <- get wine "tannin" ;;
  tannin <- clamp tannin_raw clamp_min clamp_max ;;
  acidity_raw <- get wine "acidity" ;;
  acidity <- clamp acidity_raw clamp_min clamp_max ;;
  sweetness_raw <- get wine "sweetness" ;;
  sweetness <- clamp sweetness_raw clamp_min clamp_max ;;
  Ok {| Wine.body := body;
        Wine.tannin := tannin;
        Wine.acidity := acidity;
        Wine.alcohol :=
          if JS.Number_isNaN alc then Int 3
          else JS.Math_max (Int 1) (JS.Math_min (Int 5) (JS.Math_floor alc));
        Wine.sweetness := sweetness;
        Wine.aromatic_intensity :=
          if JS.Number_isNaN arom then Int 2
          else JS.Math_max (Int 1) (JS.Math_min (Int 5) (JS.Math_floor arom)) |}.

Definition scorePairing (food wine : value) : result num :=
  f <- normalizeFood food ;;
  w <- normalizeWine wine ;;
  let score := BASE_SCORE in
  let score :=
    if JS.lt (JS.add (Wine.acidity w) (Int 1)) (Food.acidity f)
    then JS.sub score ACID_GAP_PENALTY else score in
  let score :=
    if JS.ge (Food.spice_heat f) (Int 3) && JS.ge (Wine.alcohol w) (Int 4)
    then JS.sub score SPICE_ALCOHOL_PENALTY else score in
  let score :=
    if JS.ge (Wine.tannin w) (Int 4) && JS.ge (Food.spice_heat f) (Int 3)
    then JS.sub score SPICE_TANNIN_PENALTY else score in
  let score :=
    if JS.ge (Food.fat_level f) (Int 3)
       && (JS.ge (Wine.acidity w) (Int 3) || JS.ge (Wine.tannin w) (Int 3))
    then JS.add score FAT_BALANCE_BONUS else score in
  let bodyDiff := JS.Math_abs (JS.sub (Food.protein_intensity f) (Wine.body w)) in
  let score :=
    if JS.le bodyDiff (Int 1)
    then JS.add score INTENSITY_HARMONY_BONUS else score in
  let score := JS.Math_max (Int 0) (JS.Math_min (Int 100) score) in
  let score :=
    if JS.lt (Wine.sweetness w) (Food.sweetness f)
    then JS.Math_min score SWEETNESS_CAP else score in
  Ok score.

(** The value of [score] in the 5-rule [scorePairing] once its five
    additive checks have been applied, before the clamp. *)
Definition sumOfDeltas (f : Food.t) (w : Wine.t) : num :=
  let score := BASE_SCORE in
  let score :=
    if JS.lt (JS.add (Wine.acidity w) (Int 1)) (Food.acidity f)
    then JS.sub score ACID_GAP_PENALTY else score in
  let score :=
    if JS.ge (Food.spice_heat f) (Int 3) && JS.ge (Wine.alcohol w) (Int 4)
    then JS.sub score SPICE_ALCOHOL_PENALTY else score in
  let score :=
    if JS.ge (Wine.tannin w) (Int 4) && JS.ge (Food.spice_heat f) (Int 3)
    then JS.sub score SPICE_TANNIN_PENALTY else score in
  let score :=
    if JS.ge (Food.fat_level f) (Int 3)
       && (JS.ge (Wine.acidity w) (Int 3) || JS.ge (Wine.tannin w) (Int 3))
    then JS.add score FAT_BALANCE_BONUS else score in
  let bodyDiff := JS.Math_abs (JS.sub (Food.protein_intensity f) (Wine.body w)) in
  if JS.le bodyDiff (Int 1)
  then JS.add score INTENSITY_HARMONY_BONUS else score.

(** The 5-rule [calculatePairing]: no guard on the food, no truncation. *)
Definition calculatePairing (food wines : value) : result (list Scored.t) :=
  if negb (isArray wines) || Nat.eqb (List.length (elements wines)) 0
  then Ok []
  else
    results <-
      mapM (fun wine =>
              score <- scorePairing food wine ;;
              Ok {| Scored.wine := wine; Scored.score := score |})
           (elements wines) ;;
    let results :=
      Arr.sort (fun a b => JS.sub (Scored.score b) (Scored.score a)) results in
    Ok results.

End WithHost.
End Legacy.

(** ** [assets/js/ui.js]: the click handler

    What the handler registered on the Calculate button decides, given the
    two arrays [loadData] has returned and the value of the select element
    (always a string).  The page is reduced to what [#results] holds after
    the call: the three elements [initEngine] has found are taken to exist.
    An exception raised inside the handler is not caught by the [try] of
    [initEngine], which has returned by then. *)

Module UI.
Import Value.

(** The content of [#results]. *)
Inductive view : Type :=
| Text (text : string)
| Alert (message : string)
| Cards (cards : list PairingResult.t).

(** [a === b] where [b] is a string. *)
Definition strict_eq_string (a : value) (b : string) : bool :=
  match a with
  | VStr s => String.eqb s b
  | _ => false
  end.

(** [l.find(pred)]: the first element [pred] accepts, else [undefined]. *)
Fixpoint find (pred : value -> result bool) (l : list value) : result value :=
  match l with
  | [] => Ok VUndefined
  | x :: l' => b <- pred x ;; if b then Ok x else find pred l'
  end.

(** [renderResults(results)]: one card per result, each carrying the
    result's name, score and reasons. *)
Definition renderResults (results : list PairingResult.t) : view :=
  if Nat.eqb (List.length results) 0
  then Text "No pairings found. Try another dish."
  else Cards results.

Definition showError (message : string) : view := Alert message.

Section WithHost.
Context {host : Host}.

Definition onCalculate (foods : list value) (wines : value)
    (selectedName : string) : result view :=
  if negb (ToBoolean (VStr selectedName)) then
    Ok (showError "Please select a dish.")
  else
    selectedFood <-
      find (fun f => name <- get f "name" ;;
                     Ok (strict_eq_string name selectedName)) foods ;;
    if negb (ToBoolean selectedFood) then
      Ok (showError "Selected dish not found.")
    else
      results <- Engine.calculatePairing selectedFood wines ;;
      Ok (renderResults results).

End WithHost.
End UI.

(** ** A host for the examples

    The concrete records used below hold numbers in their numeric fields and
    ASCII strings in their names and flavor notes.  The host is never asked
    to convert a string to a number or a number to a string (this one
    answers [NaN] and the empty string), and on ASCII strings [toLowerCase]
    is [Str.ascii_lower]. *)

Definition example_host : Host :=
  {| StringToNumber := fun _ => NaN;
     NumberToString := fun _ => "";
     toLowerCase := Str.ascii_lower;
     toLowerCase_empty := eq_refl |}.

Definition num_field (k : string) (z : Z) : string * value := (k, VNum (Int z)).

(** A number that is an integer between [lo] and [hi]. *)
Definition int_in (lo hi : Z) (n : num) : Prop :=
  exists k : Z, n = Int k /\ lo <= k <= hi.

Definition is_int (n : num) : Prop := exists k : Z, n = Int k.

(** ** Sample records *)

Module Sample.

(** The two worked examples of the specification. *)
Definition steak : value :=
  VObj [num_field "protein_intensity" 5; num_field "fat_level" 2;
        num_field "acidity" 2; num_field "sweetness" 0;
        num_field "spice_heat" 0; num_field "umami" 2].

Definition big_red : value :=
  VObj [num_field "body" 5; num_field "tannin" 2; num_field "acidity" 2;
        num_field "alcohol" 4; num_field "sweetness" 0].

Definition curry : Food.t :=
  {| Food.name := "Spicy Thai Curry"; Food.protein_intensity := Int 2;
     Food.fat_level := Int 2; Food.acidity := Int 2; Food.sweetness := Int 1;
     Food.spice_heat := Int 4; Food.umami := Int 2 |}.

Definition hot_red : Wine.t :=
  {| Wine.name := "Hot Red"; Wine.body := Int 4; Wine.tannin := Int 5;
     Wine.acidity := Int 2; Wine.alcohol := Int 5; Wine.sweetness := Int 2;
     Wine.aromatic_intensity := Int 3; Wine.flavor_profile := [] |}.

(** A sweet, sharp, heavy dish and a thin dry wine: the rules already bring
    the score down to 15 before the cap is looked at. *)
Definition dessert : value :=
  VObj [num_field "protein_intensity" 5; num_field "acidity" 5;
        num_field "sweetness" 3].

Definition thin_dry : value :=
  VObj [("name", VStr "Thin Dry"); num_field "body" 0; num_field "acidity" 0;
        num_field "sweetness" 1].

Definition dessert_n : Food.t :=
  {| Food.name := ""; Food.protein_intensity := Int 5; Food.fat_level := Int 0;
     Food.acidity := Int 5; Food.sweetness := Int 3; Food.spice_heat := Int 0;
     Food.umami := Int 0 |}.

Definition thin_dry_n : Wine.t :=
  {| Wine.name := "Thin Dry"; Wine.body := Int 0; Wine.tannin := Int 0;
     Wine.acidity := Int 0; Wine.alcohol := Int 3; Wine.sweetness := Int 1;
     Wine.aromatic_intensity := Int 2; Wine.flavor_profile := [] |}.

(** Four wines for a dish with no attributes: [a] and [c] score 65, [b] and
    [d] score 35. *)
Definition plain_dish : value := VObj [("name", VStr "Plain")].

Definition wine_named (n : string) (body : Z) : value :=
  VObj [("name", VStr n); num_field "body" body].

Definition cellar : list value :=
  [wine_named "b" 5; wine_named "a" 0; wine_named "d" 4; wine_named "c" 1].

(** A wine whose flavor notes include an empty entry. *)
Definition blank_note : value :=
  VObj [("name", VStr "Blank"); ("flavor_profile", VArr [VStr "oak"; VStr ""])].

(** A wine whose name is a number. *)
Definition numbered : value := VObj [("name", VNum (Int 42))].

(** An object with an own [toString] that is not callable, as
    [JSON.parse] builds it from [{"toString": null}], and records that hold
    it in a numeric field. *)
Definition stubborn : value := VObj [("toString", VNull)].


Definition stubborn_wine : value :=
  VObj [("name", VStr "Stubborn"); ("body", stubborn)].

(** A dish whose [texture], a field only the 5-rule engine reads, cannot be
    converted. *)
Definition rough_dish : value :=
  VObj [("name", VStr "Rough"); ("texture", stubborn)].

End Sample.

(** The raw fields each normalizer hands to [Number]. *)
Definition food_keys : list string :=
  ["protein_intensity"; "fat_level"; "acidity"; "sweetness"; "spice_heat";
   "umami"].

Definition wine_keys : list string :=
  ["alcohol"; "aromatic_intensity"; "body"; "tannin"; "acidity"; "sweetness"].

(** [Number] returns on each of the fields [keys] of [record]. *)
Definition fields_convert {host : Host} (keys : list string) (record : value) : Prop :=
  Forall (fun k => exists n, Value.Number (Value.prop record k) = Ok n) keys.



(** Results in descending order of score. *)
Definition descending (rs : list PairingResult.t) : Prop :=
  StronglySorted
    (fun a b => JS.ge (PairingResult.score a) (PairingResult.score b) = true) rs.

(** The results whose score is [s]. *)
Definition with_score (s : num) (rs : list PairingResult.t) : list PairingResult.t :=
  filter (fun r => JS.eq (PairingResult.score r) s) rs.

(** The score [scoreOnePair] returns for two normalized records: the
    clamped sum, lowered to the cap when the sweetness rule gives one. *)
Definition cappedScore {host : Host} (f : Food.t) (w : Wine.t) : num :=
  match Cap.cap (Engine.applySweetnessRule f w) with
  | Some cap => JS.Math_min (Engine.clampedSum f w) cap
  | None => Engine.clampedSum f w
  end.

(** A pair on which every bonus applies and no penalty does (the flavor
    note is the very name of the dish), and its normalized form. *)
Definition best_dish : value :=
  VObj [("name", VStr "Oak"); num_field "fat_level" 3;
        num_field "spice_heat" 3; num_field "umami" 3].

Definition best_wine : value :=
  VObj [("name", VStr "Best"); num_field "acidity" 3; num_field "alcohol" 1;
        num_field "sweetness" 1; ("flavor_profile", VArr [VStr "Oak"])].

Definition best_dish_n : Food.t :=
  {| Food.name := "Oak"; Food.protein_intensity := Int 0; Food.fat_level := Int 3;
     Food.acidity := Int 0; Food.sweetness := Int 0; Food.spice_heat := Int 3;
     Food.umami := Int 3 |}.

Definition best_wine_n : Wine.t :=
  {| Wine.name := "Best"; Wine.body := Int 0; Wine.tannin := Int 0;
     Wine.acidity := Int 3; Wine.alcohol := Int 1; Wine.sweetness := Int 1;
     Wine.aromatic_intensity := Int 2; Wine.flavor_profile := [VStr "Oak"] |}.

(** A pair on which the penalties bring the sum to -10. *)
Definition worst_dish : value :=
  VObj [num_field "protein_intensity" 5; num_field "acidity" 5;
        num_field "spice_heat" 5].

Definition worst_wine : value :=
  VObj [num_field "alcohol" 5; num_field "tannin" 5].

(** A normalized wine with another sweetness, and with another alcohol. *)
Definition with_sweetness (w : Wine.t) (s : num) : Wine.t :=
  {| Wine.name := Wine.name w; Wine.body := Wine.body w;
     Wine.tannin := Wine.tannin w; Wine.acidity := Wine.acidity w;
     Wine.alcohol := Wine.alcohol w; Wine.sweetness := s;
     Wine.aromatic_intensity := Wine.aromatic_intensity w;
     Wine.flavor_profile := Wine.flavor_profile w |}.

Definition with_alcohol (w : Wine.t) (a : num) : Wine.t :=
  {| Wine.name := Wine.name w; Wine.body := Wine.body w;
     Wine.tannin := Wine.tannin w; Wine.acidity := Wine.acidity w;
     Wine.alcohol := a; Wine.sweetness := Wine.sweetness w;
     Wine.aromatic_intensity := Wine.aromatic_intensity w;
     Wine.flavor_profile := Wine.flavor_profile w |}.

(** What the Flavor Bridge rule returns when it fires and when it does not. *)
Definition bridge_fired : Rule.t :=
  {| Rule.delta := Int 5;
     Rule.reasoning := ["Flavor bridge between wine and dish."] |}.

Definition bridge_silent : Rule.t := {| Rule.delta := Int 0; Rule.reasoning := [] |}.

(** A wine whose flavor notes are one string instead of an array. *)
Definition loose_note : value :=
  VObj [("name", VStr "Loose"); ("flavor_profile", VStr "oak")].

(** A food record that the selection [sel] does not name. *)
Definition other_dish (sel : string) (f : value) : Prop :=
  Value.nullish f = false /\ Value.prop f "name" <> VStr sel.

(** A pair on which no rule fires, and the normalized forms of the first
    worked example. *)
Definition quiet_dish : value := VObj [num_field "protein_intensity" 2].

Definition quiet_wine : value := VObj [("name", VStr "Quiet")].

Definition steak_n : Food.t :=
  {| Food.name := ""; Food.protein_intensity := Int 5; Food.fat_level := Int 2;
     Food.acidity := Int 2; Food.sweetness := Int 0; Food.spice_heat := Int 0;
     Food.umami := Int 2 |}.

Definition big_red_n : Wine.t :=
  {| Wine.name := ""; Wine.body := Int 5; Wine.tannin := Int 2;
     Wine.acidity := Int 2; Wine.alcohol := Int 4; Wine.sweetness := Int 0;
     Wine.aromatic_intensity := Int 2; Wine.flavor_profile := [] |}.

(** A wine with a flavor note that occurs, in another case, in the name of
    the curry. *)
Definition thai_white : Wine.t :=
  {| Wine.name := "Thai White"; Wine.body := Int 2; Wine.tannin := Int 0;
     Wine.acidity := Int 3; Wine.alcohol := Int 2; Wine.sweetness := Int 2;
     Wine.aromatic_intensity := Int 4;
     Wine.flavor_profile := [VNum (Int 7); VStr "THAI"] |}.

(** A rich dish, and a wine with neither acidity nor tannin. *)
Definition rich_dish : Food.t :=
  {| Food.name := "Rich"; Food.protein_intensity := Int 3; Food.fat_level := Int 4;
     Food.acidity := Int 1; Food.sweetness := Int 0; Food.spice_heat := Int 0;
     Food.umami := Int 1 |}.

Definition flat_wine : Wine.t :=
  {| Wine.name := "Flat"; Wine.body := Int 3; Wine.tannin := Int 2;
     Wine.acidity := Int 1; Wine.alcohol := Int 3; Wine.sweetness := Int 0;
     Wine.aromatic_intensity := Int 2; Wine.flavor_profile := [] |}.

(** ** Integer arithmetic inside JS numbers *)

Lemma add_Int (a b : Z) : JS.add (Int a) (Int b) = Int (a + b).
Proof.
  unfold Int, inject_Z; simpl; unfold Qplus; simpl.
  now rewrite !Z.mul_1_r.
Qed.

Lemma sub_Int (a b : Z) : JS.sub (Int a) (Int b) = Int (a - b).
Proof.
  unfold JS.sub, Int, inject_Z; simpl; unfold Qplus; simpl.
  now rewrite !Z.mul_1_r.
Qed.

Lemma le_Int (a b : Z) : JS.le (Int a) (Int b) = (a <=? b).
Proof.
  unfold Int, inject_Z; simpl; unfold Qle_bool; simpl.
  now rewrite !Z.mul_1_r.
Qed.

Lemma lt_Int (a b : Z) : JS.lt (Int a) (Int b) = (a <? b).
Proof.
  unfold Int, inject_Z; simpl; unfold Qle_bool; simpl.
  rewrite !Z.mul_1_r. symmetry. apply Z.ltb_antisym.
Qed.

Lemma ge_Int (a b : Z) : JS.ge (Int a) (Int b) = (b <=? a).
Proof. apply le_Int. Qed.

Lemma gt_Int (a b : Z) : JS.gt (Int a) (Int b) = (b <? a).
Proof. apply lt_Int. Qed.

Lemma max_Int (a b : Z) : JS.Math_max (Int a) (Int b) = Int (Z.max a b).
Proof.
  change (JS.Math_max (Int a) (Int b))
    with (if JS.lt (Int a) (Int b) then Int b else Int a).
  rewrite lt_Int. destruct (Z.ltb_spec a b); f_equal; lia.
Qed.

Lemma min_Int (a b : Z) : JS.Math_min (Int a) (Int b) = Int (Z.min a b).
Proof.
  change (JS.Math_min (Int a) (Int b))
    with (if JS.lt (Int b) (Int a) then Int b else Int a).
  rewrite lt_Int. destruct (Z.ltb_spec b a); f_equal; lia.
Qed.

Lemma abs_Int (a : Z) : JS.Math_abs (Int a) = Int (Z.abs a).
Proof. reflexivity. Qed.

Lemma Int_inj (a b : Z) : Int a = Int b -> a = b.
Proof. unfold Int, inject_Z. now intros [= ->]. Qed.

Lemma Int_neq (a b : Z) : a <> b -> Int a <> Int b.
Proof. intros H E. now apply Int_inj in E. Qed.

Lemma Ok_inj {A : Type} (a b : A) : Ok a = Ok b -> a = b.
Proof. now intros [= ->]. Qed.

(** ** Normalization *)

Section Normalization.
Context {host : Host}.
Import Value.

Lemma floor_clamp_finite (lo hi : Z) (q : Q) :
  JS.Math_max (Int lo) (JS.Math_min (Int hi) (JS.Math_floor (Fin q)))
  = Int (Z.max lo (Z.min hi (Qfloor q))).
Proof. cbn [JS.Math_floor]. now rewrite min_Int, max_Int. Qed.

Lemma floor_clamp_range (lo hi : Z) (n : num) :
  lo <= hi -> n <> NaN ->
  int_in lo hi (JS.Math_max (Int lo) (JS.Math_min (Int hi) (JS.Math_floor n))).
Proof.
  intros Hle Hn. destruct n as [| | |q].
  - contradiction.
  - exists hi. split; [|lia].
    change (JS.Math_min (Int hi) (JS.Math_floor PInf)) with (Int hi).
    rewrite max_Int. f_equal; lia.
  - exists lo. split; [|lia].
    change (JS.Math_min (Int hi) (JS.Math_floor NInf)) with NInf.
    reflexivity.
  - rewrite floor_clamp_finite. eexists; split; [reflexivity|lia].
Qed.

Lemma isNaN_false (n : num) : JS.Number_isNaN n = false -> n <> NaN.
Proof. now destruct n. Qed.

(** [clamp] returns exactly where [Number] does. *)
Lemma clamp_ok (v : value) (n min max : num) :
  Number v = Ok n ->
  Engine.clamp v min max
  = Ok (if JS.Number_isNaN n then min
        else JS.Math_max min (JS.Math_min max (JS.Math_floor n))).
Proof.
  intros E. unfold Engine.clamp. rewrite E. cbn [bind].
  now destruct (JS.Number_isNaN n).
Qed.

Lemma clamp_inv (v : value) (x min max : num) :
  Engine.clamp v min max = Ok x ->
  exists n, Number v = Ok n
    /\ x = (if JS.Number_isNaN n then min
            else JS.Math_max min (JS.Math_min max (JS.Math_floor n))).
Proof.
  unfold Engine.clamp. destruct (Number v) as [n|]; [|discriminate].
  cbn [bind]. exists n. split; [reflexivity|].
  destruct (JS.Number_isNaN n); now injection H.
Qed.


Lemma clamp_range (v : value) (lo hi : Z) (x : num) :
  lo <= hi -> Engine.clamp v (Int lo) (Int hi) = Ok x -> int_in lo hi x.
Proof.
  intros Hle E. apply clamp_inv in E. destruct E as (n & _ & ->).
  destruct (JS.Number_isNaN n) eqn:E.
  - exists lo. split; [reflexivity|lia].
  - now apply floor_clamp_range, isNaN_false.
Qed.



Lemma get_present (v : value) (k : string) :
  nullish v = false -> get v k = Ok (prop v k).
Proof. unfold get. now intros ->. Qed.

Lemma truthy_not_nullish (v : value) : ToBoolean v = true -> nullish v = false.
Proof. now destruct v. Qed.



Ltac split_binds H :=
  repeat match type of H with
         | context [bind (Engine.clamp ?v ?a ?b) _] =>
             let E := fresh "C" in
             destruct (Engine.clamp v a b) eqn:E; cbn [bind] in H;
             [|discriminate H]
         | context [bind (Number ?v) _] =>
             let E := fresh "N" in
             destruct (Number v) eqn:E; cbn [bind] in H; [|discriminate H]
         end.

(** What a successful [normalizeFood] has read. *)
Lemma normalizeFood_inv (food : value) (f : Food.t) :
  Engine.normalizeFood food = Ok f ->
  nullish food = false
  /\ Food.name f = str (if is_string (prop food "name") then prop food "name" else VStr "")
  /\ Engine.clamp (prop food "protein_intensity") (Int 0) (Int 5)
     = Ok (Food.protein_intensity f)
  /\ Engine.clamp (prop food "fat_level") (Int 0) (Int 5) = Ok (Food.fat_level f)
  /\ Engine.clamp (prop food "acidity") (Int 0) (Int 5) = Ok (Food.acidity f)
  /\ Engine.clamp (prop food "sweetness") (Int 0) (Int 5) = Ok (Food.sweetness f)
  /\ Engine.clamp (prop food "spice_heat") (Int 0) (Int 5) = Ok (Food.spice_heat f)
  /\ Engine.clamp (prop food "umami") (Int 0) (Int 5) = Ok (Food.umami f).
Proof.
  intros H. unfold Engine.normalizeFood, get in H.
  destruct (nullish food) eqn:Nf; [discriminate H|]. cbn [bind] in H.
  unfold Engine.clamp_min, Engine.clamp_max in H. split_binds H.
  injection H as <-. cbn. repeat split. now destruct (prop food "name").
Qed.

Lemma normalizeFood_ok (food : value) (p a c s h u : num) :
  nullish food = false ->
  Engine.clamp (prop food "protein_intensity") (Int 0) (Int 5) = Ok p ->
  Engine.clamp (prop food "fat_level") (Int 0) (Int 5) = Ok a ->
  Engine.clamp (prop food "acidity") (Int 0) (Int 5) = Ok c ->
  Engine.clamp (prop food "sweetness") (Int 0) (Int 5) = Ok s ->
  Engine.clamp (prop food "spice_heat") (Int 0) (Int 5) = Ok h ->
  Engine.clamp (prop food "umami") (Int 0) (Int 5) = Ok u ->
  exists f, Engine.normalizeFood food = Ok f.
Proof.
  intros Nf E1 E2 E3 E4 E5 E6. unfold Engine.normalizeFood.
  rewrite !(get_present _ _ Nf). unfold Engine.clamp_min, Engine.clamp_max.
  cbn [bind]. rewrite E1. cbn [bind]. rewrite E2. cbn [bind]. rewrite E3.
  cbn [bind]. rewrite E4. cbn [bind]. rewrite E5. cbn [bind]. rewrite E6.
  cbn [bind]. eexists; reflexivity.
Qed.

(** What a successful [normalizeWine] has read. *)
Lemma normalizeWine_inv (wine : value) (w : Wine.t) :
  Engine.normalizeWine wine = Ok w ->
  nullish wine = false
  /\ Wine.name w = str (if is_string (prop wine "name") then prop wine "name" else VStr "")
  /\ Engine.clamp (prop wine "body") (Int 0) (Int 5) = Ok (Wine.body w)
  /\ Engine.clamp (prop wine "tannin") (Int 0) (Int 5) = Ok (Wine.tannin w)
  /\ Engine.clamp (prop wine "acidity") (Int 0) (Int 5) = Ok (Wine.acidity w)
  /\ Engine.clamp (prop wine "sweetness") (Int 0) (Int 5) = Ok (Wine.sweetness w)
  /\ (exists alc, Number (prop wine "alcohol") = Ok alc
        /\ Wine.alcohol w =
           (if JS.Number_isNaN alc then Int 3
            else JS.Math_max (Int 1) (JS.Math_min (Int 5) (JS.Math_floor alc))))
  /\ (exists arom, Number (prop wine "aromatic_intensity") = Ok arom
        /\ Wine.aromatic_intensity w =
           (if JS.Number_isNaN arom then Int 2
            else JS.Math_max (Int 1) (JS.Math_min (Int 5) (JS.Math_floor arom))))
  /\ Wine.flavor_profile w =
       (if isArray (prop wine "flavor_profile")
        then elements (prop wine "flavor_profile") else []).
Proof.
  intros H. unfold Engine.normalizeWine, get in H.
  destruct (nullish wine) eqn:Nw; [discriminate H|]. cbn [bind] in H.
  unfold Engine.clamp_min, Engine.clamp_max in H. split_binds H.
  injection H as <-. cbn. repeat split; eauto. now destruct (prop wine "name").
Qed.

Lemma normalizeWine_ok (wine : value) (alc arom b t c s : num) :
  nullish wine = false ->
  Number (prop wine "alcohol") = Ok alc ->
  Number (prop wine "aromatic_intensity") = Ok arom ->
  Engine.clamp (prop wine "body") (Int 0) (Int 5) = Ok b ->
  Engine.clamp (prop wine "tannin") (Int 0) (Int 5) = Ok t ->
  Engine.clamp (prop wine "acidity") (Int 0) (Int 5) = Ok c ->
  Engine.clamp (prop wine "sweetness") (Int 0) (Int 5) = Ok s ->
  exists w, Engine.normalizeWine wine = Ok w.
Proof.
  intros Nw E1 E2 E3 E4 E5 E6. unfold Engine.normalizeWine.
  rewrite !(get_present _ _ Nw). unfold Engine.clamp_min, Engine.clamp_max.
  cbn [bind]. rewrite E1. cbn [bind]. rewrite E2. cbn [bind]. rewrite E3.
  cbn [bind]. rewrite E4. cbn [bind]. rewrite E5. cbn [bind]. rewrite E6.
  cbn [bind]. eexists; reflexivity.
Qed.

Lemma normalizeFood_nullish (food : value) (f : Food.t) :
  Engine.normalizeFood food = Ok f -> nullish food = false.
Proof. intros H. now apply normalizeFood_inv in H. Qed.

Lemma normalizeWine_nullish (wine : value) (w : Wine.t) :
  Engine.normalizeWine wine = Ok w -> nullish wine = false.
Proof. intros H. now apply normalizeWine_inv in H. Qed.



Lemma fields_convert_in (keys : list string) (record : value) (k : string) :
  fields_convert keys record -> In k keys ->
  exists n, Number (prop record k) = Ok n.
Proof.
  unfold fields_convert. rewrite Forall_forall. intros H Hk. exact (H k Hk).
Qed.

Lemma clamp_converts (v : value) (min max : num) :
  (exists n, Number v = Ok n) -> exists x, Engine.clamp v min max = Ok x.
Proof. intros [n E]. rewrite (clamp_ok _ _ _ _ E). eexists; reflexivity. Qed.

Lemma normalizeFood_converts (food : value) :
  nullish food = false -> fields_convert food_keys food ->
  exists f, Engine.normalizeFood food = Ok f.
Proof.
  intros Nf Hc.
  destruct (clamp_converts (prop food "protein_intensity") (Int 0) (Int 5)) as [p Ep];
    [apply (fields_convert_in food_keys); [exact Hc|cbn; tauto]|].
  destruct (clamp_converts (prop food "fat_level") (Int 0) (Int 5)) as [a Ea];
    [apply (fields_convert_in food_keys); [exact Hc|cbn; tauto]|].
  destruct (clamp_converts (prop food "acidity") (Int 0) (Int 5)) as [c Ec];
    [apply (fields_convert_in food_keys); [exact Hc|cbn; tauto]|].
  destruct (clamp_converts (prop food "sweetness") (Int 0) (Int 5)) as [s Es];
    [apply (fields_convert_in food_keys); [exact Hc|cbn; tauto]|].
  destruct (clamp_converts (prop food "spice_heat") (Int 0) (Int 5)) as [h Eh];
    [apply (fields_convert_in food_keys); [exact Hc|cbn; tauto]|].
  destruct (clamp_converts (prop food "umami") (Int 0) (Int 5)) as [u Eu];
    [apply (fields_convert_in food_keys); [exact Hc|cbn; tauto]|].
  exact (normalizeFood_ok food p a c s h u Nf Ep Ea Ec Es Eh Eu).
Qed.

Lemma normalizeWine_converts (wine : value) :
  nullish wine = false -> fields_convert wine_keys wine ->
  exists w, Engine.normalizeWine wine = Ok w.
Proof.
  intros Nw Hc.
  destruct (fields_convert_in wine_keys wine "alcohol" Hc) as [alc Ea];
    [cbn; tauto|].
  destruct (fields_convert_in wine_keys wine "aromatic_intensity" Hc) as [arom Er];
    [cbn; tauto|].
  destruct (clamp_converts (prop wine "body") (Int 0) (Int 5)) as [b Eb];
    [apply (fields_convert_in wine_keys); [exact Hc|cbn; tauto]|].
  destruct (clamp_converts (prop wine "tannin") (Int 0) (Int 5)) as [t Et];
    [apply (fields_convert_in wine_keys); [exact Hc|cbn; tauto]|].
  destruct (clamp_converts (prop wine "acidity") (Int 0) (Int 5)) as [c Ec];
    [apply (fields_convert_in wine_keys); [exact Hc|cbn; tauto]|].
  destruct (clamp_converts (prop wine "sweetness") (Int 0) (Int 5)) as [s Es];
    [apply (fields_convert_in wine_keys); [exact Hc|cbn; tauto]|].
  exact (normalizeWine_ok wine alc arom b t c s Nw Ea Er Eb Et Ec Es).
Qed.

End Normalization.

Section NormalizationClaims.
Context {host : Host}.
Import Value.


End NormalizationClaims.

(** ** Scoring one pair *)

Section Scoring.
Context {host : Host}.
Import Value.

Lemma applyIntensityHarmony_delta (f : Food.t) (w : Wine.t) :
  int_in (-15) 15 (Rule.delta (Engine.applyIntensityHarmony f w)).
Proof.
  unfold Engine.applyIntensityHarmony.
  destruct (JS.le _ _); [|destruct (JS.ge _ _)]; cbn [Rule.delta];
    eexists; (split; [reflexivity|lia]).
Qed.

Lemma applyFatBalance_delta (f : Food.t) (w : Wine.t) :
  int_in (-10) 10 (Rule.delta (Engine.applyFatBalance f w)).
Proof.
  unfold Engine.applyFatBalance.
  destruct (_ && _)%bool; [|destruct (_ && _)%bool]; cbn [Rule.delta];
    eexists; (split; [reflexivity|lia]).
Qed.

Lemma applyAcidGap_delta (f : Food.t) (w : Wine.t) :
  int_in (-20) 0 (Rule.delta (Engine.applyAcidGap f w)).
Proof.
  unfold Engine.applyAcidGap.
  destruct (JS.lt _ _); cbn [Rule.delta]; eexists; (split; [reflexivity|lia]).
Qed.

Lemma applySpiceLogic_delta (f : Food.t) (w : Wine.t) :
  int_in (-25) 8 (Rule.delta (Engine.applySpiceLogic f w)).
Proof.
  unfold Engine.applySpiceLogic.
  destruct (_ && JS.ge (Wine.alcohol w) _)%bool;
    destruct (_ && JS.ge (Wine.tannin w) _)%bool;
    destruct (_ && JS.ge (Wine.sweetness w) _)%bool;
    cbn [Rule.delta]; rewrite ?sub_Int, ?add_Int;
    eexists; (split; [reflexivity|lia]).
Qed.

Lemma applyUmamiSupport_delta (f : Food.t) (w : Wine.t) :
  int_in 0 5 (Rule.delta (Engine.applyUmamiSupport f w)).
Proof.
  unfold Engine.applyUmamiSupport.
  destruct (_ && _)%bool; cbn [Rule.delta]; eexists; (split; [reflexivity|lia]).
Qed.

Lemma applyFlavorBridge_delta (f : Food.t) (w : Wine.t) :
  int_in 0 5 (Rule.delta (Engine.applyFlavorBridge f w)).
Proof.
  unfold Engine.applyFlavorBridge.
  destruct (_ && _)%bool; cbn [Rule.delta]; eexists; (split; [reflexivity|lia]).
Qed.

Lemma sumOfDeltas_int (f : Food.t) (w : Wine.t) :
  int_in (-25) 93 (Engine.sumOfDeltas f w).
Proof.
  unfold Engine.sumOfDeltas, Engine.BASE_SCORE.
  destruct (applyIntensityHarmony_delta f w) as (d1 & -> & ?).
  destruct (applyFatBalance_delta f w) as (d2 & -> & ?).
  destruct (applyAcidGap_delta f w) as (d3 & -> & ?).
  destruct (applySpiceLogic_delta f w) as (d4 & -> & ?).
  destruct (applyUmamiSupport_delta f w) as (d5 & -> & ?).
  destruct (applyFlavorBridge_delta f w) as (d6 & -> & ?).
  rewrite !add_Int. eexists; split; [reflexivity|lia].
Qed.

Lemma clampedSum_int (f : Food.t) (w : Wine.t) :
  int_in 0 93 (Engine.clampedSum f w).
Proof.
  unfold Engine.clampedSum.
  destruct (sumOfDeltas_int f w) as (s & -> & ?).
  rewrite min_Int, max_Int. eexists; split; [reflexivity|lia].
Qed.

(** What [scoreOnePair] returns once both records have normalized. *)
Lemma scoreOnePair_normalized (food wine : value) (f : Food.t) (w : Wine.t) :
  Engine.normalizeFood food = Ok f ->
  Engine.normalizeWine wine = Ok w ->
  Engine.scoreOnePair food wine =
  Ok {| PairingResult.name :=
          if ToBoolean (VStr (Wine.name w)) then VStr (Wine.name w)
          else Value.or (prop wine "name") (VStr "");
        PairingResult.score :=
          match Cap.cap (Engine.applySweetnessRule f w) with
          | Some cap => JS.Math_min (Engine.clampedSum f w) cap
          | None => Engine.clampedSum f w
          end;
        PairingResult.reasoning :=
          Rule.reasoning (Engine.applyIntensityHarmony f w)
          ++ Rule.reasoning (Engine.applyFatBalance f w)
          ++ Rule.reasoning (Engine.applyAcidGap f w)
          ++ Rule.reasoning (Engine.applySpiceLogic f w)
          ++ Rule.reasoning (Engine.applyUmamiSupport f w)
          ++ Rule.reasoning (Engine.applyFlavorBridge f w)
          ++ Cap.reasoning (Engine.applySweetnessRule f w) |}.
Proof.
  intros Hf Hw. unfold Engine.scoreOnePair. rewrite Hf, Hw. cbn [bind].
  rewrite (get_present _ _ (normalizeWine_nullish _ _ Hw)).
  rewrite app_nil_l, <- !app_assoc.
  destruct (ToBoolean (VStr (Wine.name w))); reflexivity.
Qed.

(** [scoreOnePair] returns exactly when both normalizers do. *)
Lemma scoreOnePair_inv (food wine : value) (r : PairingResult.t) :
  Engine.scoreOnePair food wine = Ok r ->
  exists f w, Engine.normalizeFood food = Ok f /\ Engine.normalizeWine wine = Ok w.
Proof.
  intros H.
  destruct (Engine.normalizeFood food) as [f|] eqn:Ef;
    [|unfold Engine.scoreOnePair in H; now rewrite Ef in H].
  destruct (Engine.normalizeWine wine) as [w|] eqn:Ew;
    [|unfold Engine.scoreOnePair in H; now rewrite Ef, Ew in H].
  now exists f, w.
Qed.

Lemma scoreOnePair_returns (food wine : value) (f : Food.t) (w : Wine.t) :
  Engine.normalizeFood food = Ok f -> Engine.normalizeWine wine = Ok w ->
  exists r, Engine.scoreOnePair food wine = Ok r.
Proof.
  intros Ef Ew. rewrite (scoreOnePair_normalized _ _ _ _ Ef Ew).
  eexists; reflexivity.
Qed.

Lemma scoreOnePair_score (food wine : value) (f : Food.t) (w : Wine.t)
    (r : PairingResult.t) :
  Engine.normalizeFood food = Ok f -> Engine.normalizeWine wine = Ok w ->
  Engine.scoreOnePair food wine = Ok r ->
  PairingResult.score r = cappedScore f w.
Proof.
  intros Ef Ew E. rewrite (scoreOnePair_normalized _ _ _ _ Ef Ew) in E.
  now injection E as <-.
Qed.

Lemma cappedScore_range (f : Food.t) (w : Wine.t) : int_in 0 93 (cappedScore f w).
Proof.
  unfold cappedScore. destruct (clampedSum_int f w) as (s & -> & ?).
  unfold Engine.applySweetnessRule. destruct (JS.lt _ _); cbn [Cap.cap].
  - rewrite min_Int. eexists; split; [reflexivity|lia].
  - eexists; split; [reflexivity|lia].
Qed.

Lemma scoreOnePair_score_range (food wine : value) (r : PairingResult.t) :
  Engine.scoreOnePair food wine = Ok r ->
  int_in 0 93 (PairingResult.score r).
Proof.
  intros H. destruct (scoreOnePair_inv _ _ _ H) as (f & w & Ef & Ew).
  rewrite (scoreOnePair_score _ _ _ _ _ Ef Ew H). apply cappedScore_range.
Qed.

Lemma scorePairing_inv (food wine : value) (r : PairingResult.t) :
  Engine.scorePairing food wine = Ok r ->
  r = {| PairingResult.name := VStr "";
         PairingResult.score := Int 0;
         PairingResult.reasoning := [] |}
  \/ Engine.scoreOnePair food wine = Ok r.
Proof.
  unfold Engine.scorePairing.
  destruct (negb (ToBoolean food) || negb (ToBoolean wine))%bool.
  - intros [= <-]. now left.
  - now right.
Qed.

Lemma scorePairing_converts (food wine : value) :
  fields_convert food_keys food -> fields_convert wine_keys wine ->
  exists r, Engine.scorePairing food wine = Ok r.
Proof.
  intros Hf Hw. unfold Engine.scorePairing.
  destruct (ToBoolean food) eqn:Tf; cbn [negb orb];
    [destruct (ToBoolean wine) eqn:Tw; cbn [negb]|];
    try (eexists; reflexivity).
  destruct (normalizeFood_converts food (truthy_not_nullish _ Tf) Hf) as [f Ef].
  destruct (normalizeWine_converts wine (truthy_not_nullish _ Tw) Hw) as [w Ew].
  exact (scoreOnePair_returns _ _ _ _ Ef Ew).
Qed.

(** C1. Whenever [scorePairing] returns, on records however malformed, its
    score is an integer between 0 and 100; and it does return on every pair
    whose numeric fields [Number] converts (it raises only where a field is
    an object that cannot be made a primitive). *)
Theorem scorePairing_score_range (food wine : value) :
  (forall r, Engine.scorePairing food wine = Ok r ->
     exists z, PairingResult.score r = Int z /\ 0 <= z <= 100)
  /\ (fields_convert food_keys food -> fields_convert wine_keys wine ->
      exists r, Engine.scorePairing food wine = Ok r).
Proof.
  split; [|apply scorePairing_converts].
  intros r E. destruct (scorePairing_inv _ _ _ E) as [->|E1].
  - exists 0. split; [reflexivity|lia].
  - destruct (scoreOnePair_score_range _ _ _ E1) as (z & Hz & ?).
    exists z. split; [exact Hz|lia].
Qed.

End Scoring.

(** ** The rules and the aggregate *)

Section Rules.
Context {host : Host}.
Import Value.

Lemma scorePairing_present (food wine : value) :
  ToBoolean food = true -> ToBoolean wine = true ->
  Engine.scorePairing food wine = Engine.scoreOnePair food wine.
Proof. unfold Engine.scorePairing. now intros -> ->. Qed.

(** C2. When the normalized wine is less sweet than the normalized food, the
    score [scorePairing] returns is at most 40 and the reasoning contains
    the sweetness message; the score is the minimum of 40 and the sum
    already clamped to 0..100, so the cap does not raise it. *)
Theorem sweetness_cap (food wine : value) (f : Food.t) (w : Wine.t) :
  ToBoolean food = true -> ToBoolean wine = true ->
  Engine.normalizeFood food = Ok f -> Engine.normalizeWine wine = Ok w ->
  JS.lt (Wine.sweetness w) (Food.sweetness f) = true ->
  exists r, Engine.scorePairing food wine = Ok r
    /\ JS.le (PairingResult.score r) (Int 40) = true
    /\ In "Wine sweetness lower than dish sweetness." (PairingResult.reasoning r)
    /\ PairingResult.score r = JS.Math_min (Engine.clampedSum f w) (Int 40)
    /\ JS.le (PairingResult.score r) (Engine.clampedSum f w) = true.
Proof.
  intros Tf Tw Ef Ew Hlt.
  rewrite (scorePairing_present _ _ Tf Tw), (scoreOnePair_normalized _ _ _ _ Ef Ew).
  eexists; split; [reflexivity|]. cbn [PairingResult.score PairingResult.reasoning].
  unfold Engine.applySweetnessRule. rewrite Hlt. cbn [Cap.cap Cap.reasoning].
  destruct (clampedSum_int f w) as (s & -> & Hs). rewrite min_Int, !le_Int.
  repeat split; try (apply Z.leb_le; lia).
  rewrite !in_app_iff. do 6 right. now left.
Qed.

(** C6. The reasoning [scorePairing] returns is the concatenation of the
    rules' reasoning lists in the order Intensity Harmony, Fat Balance, Acid
    Gap, Spice Logic, Umami Support, Flavor Bridge, Sweetness; when the
    normalized wine is less sweet than the normalized food the sweetness
    message is its last entry, whatever the score was before the cap. *)
Theorem reasoning_in_rule_order (food wine : value) (f : Food.t) (w : Wine.t) :
  ToBoolean food = true -> ToBoolean wine = true ->
  Engine.normalizeFood food = Ok f -> Engine.normalizeWine wine = Ok w ->
  exists r, Engine.scorePairing food wine = Ok r
    /\ PairingResult.reasoning r =
         Rule.reasoning (Engine.applyIntensityHarmony f w)
         ++ Rule.reasoning (Engine.applyFatBalance f w)
         ++ Rule.reasoning (Engine.applyAcidGap f w)
         ++ Rule.reasoning (Engine.applySpiceLogic f w)
         ++ Rule.reasoning (Engine.applyUmamiSupport f w)
         ++ Rule.reasoning (Engine.applyFlavorBridge f w)
         ++ Cap.reasoning (Engine.applySweetnessRule f w)
    /\ (JS.lt (Wine.sweetness w) (Food.sweetness f) = true ->
        exists before,
          PairingResult.reasoning r
          = before ++ ["Wine sweetness lower than dish sweetness."]
          /\ before =
             Rule.reasoning (Engine.applyIntensityHarmony f w)
             ++ Rule.reasoning (Engine.applyFatBalance f w)
             ++ Rule.reasoning (Engine.applyAcidGap f w)
             ++ Rule.reasoning (Engine.applySpiceLogic f w)
             ++ Rule.reasoning (Engine.applyUmamiSupport f w)
             ++ Rule.reasoning (Engine.applyFlavorBridge f w)).
Proof.
  intros Tf Tw Ef Ew.
  rewrite (scorePairing_present _ _ Tf Tw), (scoreOnePair_normalized _ _ _ _ Ef Ew).
  eexists; split; [reflexivity|]. cbn [PairingResult.reasoning].
  split; [reflexivity|]. intros Hlt.
  unfold Engine.applySweetnessRule. rewrite Hlt. cbn [Cap.reasoning].
  eexists; split; [|reflexivity]. now rewrite <- !app_assoc.
Qed.

(** C7. The three checks of Spice Logic accumulate: with spice heat at least
    3, alcohol and tannin at least 4 and wine sweetness at least 1 the rule
    gives -15 - 10 + 8 = -17 and the three messages in the order alcohol,
    tannin, sweetness. *)
Theorem spice_logic_accumulates (f : Food.t) (w : Wine.t) :
  JS.ge (Food.spice_heat f) (Int 3) = true ->
  JS.ge (Wine.alcohol w) (Int 4) = true ->
  JS.ge (Wine.tannin w) (Int 4) = true ->
  JS.ge (Wine.sweetness w) (Int 1) = true ->
  Engine.applySpiceLogic f w =
  {| Rule.delta := Int (-17);
     Rule.reasoning := ["High alcohol clashes with spice heat.";
                        "Tannins amplified by spice.";
                        "Slight sweetness softens spice."] |}.
Proof.
  intros Hs Ha Ht Hw. unfold Engine.applySpiceLogic.
  rewrite Hs, Ha, Ht, Hw. reflexivity.
Qed.

Lemma includes_empty (s : string) : Str.includes s "" = true.
Proof. destruct s; reflexivity. Qed.

(** C10. A wine whose [flavor_profile] array has the empty string among its
    entries gets the Flavor Bridge bonus (+5 and the message) with every
    food it is scored with, whatever the food's name: the empty string is a
    substring of every string. *)
Theorem flavor_bridge_empty_entry
    (food wine : value) (f : Food.t) (w : Wine.t) (profile : list value) :
  Engine.normalizeFood food = Ok f ->
  Engine.normalizeWine wine = Ok w ->
  get wine "flavor_profile" = Ok (VArr profile) ->
  In (VStr "") profile ->
  Wine.flavor_profile w = profile
  /\ Engine.applyFlavorBridge f w =
     {| Rule.delta := Int 5;
        Rule.reasoning := ["Flavor bridge between wine and dish."] |}.
Proof.
  intros Ef Ew Hg Hin.
  destruct (normalizeWine_inv _ _ Ew) as (Nw & _ & _ & _ & _ & _ & _ & _ & Efp).
  rewrite (get_present _ _ Nw) in Hg. injection Hg as Hp.
  rewrite Hp in Efp. cbn in Efp. split; [exact Efp|].
  unfold Engine.applyFlavorBridge. rewrite Efp.
  assert (E : existsb
         (fun flavor =>
            is_string flavor
            && Str.includes
                 (toLowerCase (str (Value.or (VStr (Food.name f)) (VStr ""))))
                 (toLowerCase (str flavor)))%bool profile = true).
  { apply existsb_exists. exists (VStr ""). split; [assumption|].
    cbn [is_string str andb]. rewrite toLowerCase_empty. apply includes_empty. }
  rewrite E. destruct profile; [contradiction|reflexivity].
Qed.

(** C4. [calculatePairing] returns the empty array, without raising, when
    the food is absent (falsy), the wines are not an array or the array is
    empty; [scorePairing] returns the name "", the score 0 and no reasoning
    when either argument is absent. *)
Theorem absent_inputs (food wine wines : value) :
  (ToBoolean food = false \/ isArray wines = false \/ wines = VArr [] ->
   Engine.calculatePairing food wines = Ok [])
  /\ (ToBoolean food = false \/ ToBoolean wine = false ->
      Engine.scorePairing food wine =
      Ok {| PairingResult.name := VStr "";
            PairingResult.score := Int 0;
            PairingResult.reasoning := [] |}).
Proof.
  split.
  - unfold Engine.calculatePairing. intros [-> | [-> | ->]].
    + reflexivity.
    + now rewrite orb_true_r.
    + cbn. now rewrite orb_true_r.
  - unfold Engine.scorePairing. intros [-> | ->].
    + reflexivity.
    + now rewrite orb_true_r.
Qed.

(** The name [scoreOnePair] gives a result: the normalized name when it is
    not empty, else the raw [name] field when it is truthy, else "". *)
Lemma scoreOnePair_name (food wine : value) (r : PairingResult.t) :
  Engine.scoreOnePair food wine = Ok r ->
  PairingResult.name r =
    match prop wine "name" with
    | VStr s => VStr s
    | raw => if ToBoolean raw then raw else VStr ""
    end.
Proof.
  intros H.
  destruct (Engine.normalizeFood food) as [f|] eqn:Ef;
    [|unfold Engine.scoreOnePair in H; now rewrite Ef in H].
  destruct (Engine.normalizeWine wine) as [w|] eqn:Ew;
    [|unfold Engine.scoreOnePair in H; now rewrite Ef, Ew in H].
  rewrite (scoreOnePair_normalized _ _ _ _ Ef Ew) in H. injection H as <-.
  cbn [PairingResult.name].
  destruct (normalizeWine_inv _ _ Ew) as (_ & Hname & _).
  rewrite Hname. unfold Value.or.
  destruct (prop wine "name") as [| |b|n|s|l|o]; cbn; try reflexivity.
  destruct s; reflexivity.
Qed.

(** C8, at a wine whose [name] is the number 42: the result's name is that
    number, not a string. *)
Theorem scorePairing_name_not_string :
  exists r,
    Engine.scorePairing (VObj []) Sample.numbered = Ok r
    /\ PairingResult.name r = VNum (Int 42)
    /\ is_string (PairingResult.name r) = false.
Proof. eexists. split; [reflexivity|]. split; reflexivity. Qed.

(** C9. The 7-rule engine and the 5-rule engine disagree on a food with
    umami 3 and a wine with acidity 3: Umami Support adds 5 in the first and
    does not exist in the second. *)
Theorem engines_differ :
  exists (food wine : value) (r : PairingResult.t) (s : num),
    Engine.scorePairing food wine = Ok r
    /\ Legacy.scorePairing food wine = Ok s
    /\ PairingResult.score r = Int 70 /\ s = Int 65
    /\ PairingResult.score r <> s
    /\ In "Acidity supports savory depth." (PairingResult.reasoning r).
Proof.
  exists (VObj [num_field "umami" 3]), (VObj [num_field "acidity" 3]).
  eexists; eexists. split; [reflexivity|]. split; [reflexivity|].
  split; [reflexivity|]. split; [reflexivity|]. split.
  - cbn. intros [=].
  - cbn. auto.
Qed.

End Rules.

(** ** Sorting *)

Section SortFacts.
Context {A : Type} (comparefn : A -> A -> num).
#[local] Arguments Arr.after : simpl never.
#[local] Abbreviation after := (Arr.after comparefn).
#[local] Abbreviation insert := (Arr.insert comparefn).
#[local] Abbreviation sort := (Arr.sort comparefn).

Lemma insert_perm (x : A) (l : list A) : Permutation (insert x l) (x :: l).
Proof.
  induction l as [|y l IH]; cbn; [reflexivity|].
  destruct (after x y); [|reflexivity].
  rewrite IH. apply perm_swap.
Qed.

Lemma sort_perm (l : list A) : Permutation (sort l) l.
Proof.
  induction l as [|x l IH]; cbn; [reflexivity|].
  rewrite insert_perm. now constructor.
Qed.

(** Stability: a class of elements that the comparator never orders among
    themselves keeps its order. *)
Section Stable.
Variable P : A -> Prop.
Variable p : A -> bool.
Hypothesis p_tied :
  forall x y, P x -> P y -> p x = true -> p y = true -> after x y = false.

Lemma filter_insert (x : A) (l : list A) :
  P x -> Forall P l ->
  filter p (insert x l) = if p x then x :: filter p l else filter p l.
Proof.
  intros Px Hl. induction Hl as [|y l Py Hl IH]; cbn.
  - reflexivity.
  - destruct (after x y) eqn:Eaft; cbn.
    + rewrite IH. destruct (p x) eqn:Ex, (p y) eqn:Ey; try reflexivity.
      now rewrite (p_tied x y) in Eaft.
    + reflexivity.
Qed.

Lemma filter_sort (l : list A) :
  Forall P l -> filter p (sort l) = filter p l.
Proof.
  intros Hl. induction Hl as [|x l Px Hl IH]; cbn; [reflexivity|].
  rewrite filter_insert, IH; auto.
  apply Forall_forall. intros y Hy. rewrite Forall_forall in Hl.
  apply Hl. now apply (Permutation_in _ (sort_perm l)).
Qed.

End Stable.

(** Order: where the comparator agrees with a transitive relation, the
    sorted list is ordered by it. *)
Section Ordered.
Variable P : A -> Prop.
Variable R : A -> A -> Prop.
Hypothesis after_true : forall x y, P x -> P y -> after x y = true -> R y x.
Hypothesis after_false : forall x y, P x -> P y -> after x y = false -> R x y.
Hypothesis R_trans : forall x y z, P x -> P y -> P z -> R x y -> R y z -> R x z.

Lemma insert_sorted (x : A) (l : list A) :
  P x -> Forall P l -> StronglySorted R l -> StronglySorted R (insert x l).
Proof.
  intros Px Hl Hs. induction Hs as [|y l Hs IH Hy]; cbn.
  - repeat constructor.
  - inversion Hl as [|? ? Py Hl']; subst.
    destruct (after x y) eqn:Eaft.
    + constructor; [now apply IH|].
      apply Forall_forall. intros z Hz.
      apply (Permutation_in _ (insert_perm x l)) in Hz. destruct Hz as [<-|Hz].
      * now apply after_true.
      * rewrite Forall_forall in Hy. now apply Hy.
    + constructor; [now constructor|].
      assert (Rxy : R x y) by now apply after_false.
      constructor; [exact Rxy|].
      rewrite Forall_forall in *. intros z Hz.
      apply R_trans with y; auto.
Qed.

Lemma sort_sorted (l : list A) : Forall P l -> StronglySorted R (sort l).
Proof.
  intros Hl. induction Hl as [|x l Px Hl IH]; cbn; [constructor|].
  apply insert_sorted; auto.
  apply Forall_forall. intros y Hy. rewrite Forall_forall in Hl.
  apply Hl. now apply (Permutation_in _ (sort_perm l)).
Qed.

End Ordered.

Lemma In_firstn (n : nat) (l : list A) (x : A) : In x (firstn n l) -> In x l.
Proof.
  intros H. rewrite <- (firstn_skipn n l). apply in_or_app. now left.
Qed.

Lemma firstn_sorted (R : A -> A -> Prop) (n : nat) (l : list A) :
  StronglySorted R l -> StronglySorted R (firstn n l).
Proof.
  intros Hs. revert n. induction Hs as [|x l Hs IH Hx]; intros [|n]; cbn;
    try constructor; auto.
  rewrite Forall_forall in *. intros y Hy. apply Hx.
  eapply In_firstn; eassumption.
Qed.

Lemma filter_firstn (p : A -> bool) (n : nat) (l : list A) :
  exists rest, filter p l = filter p (firstn n l) ++ rest.
Proof.
  exists (filter p (skipn n l)).
  now rewrite <- filter_app, firstn_skipn.
Qed.

End SortFacts.

Section MapM.
Context {A B : Type} (f : A -> result B).

Lemma mapM_total (l : list A) :
  Forall (fun x => exists y, f x = Ok y) l ->
  exists ys, mapM f l = Ok ys.
Proof.
  induction 1 as [|x l [y Ey] _ [ys Eys]]; cbn.
  - now exists [].
  - rewrite Ey, Eys. cbn. now exists (y :: ys).
Qed.

Lemma mapM_Forall2 (l : list A) (ys : list B) :
  mapM f l = Ok ys <-> Forall2 (fun x y => f x = Ok y) l ys.
Proof.
  revert ys. induction l as [|x l IH]; intros ys; cbn.
  - split.
    + intros [= <-]. constructor.
    + now inversion 1.
  - split.
    + destruct (f x) as [y|] eqn:Ey; [|discriminate]. cbn.
      destruct (mapM f l) as [ys'|] eqn:Eys; [|discriminate]. cbn.
      intros [= <-]. constructor; [assumption|]. now apply IH.
    + inversion 1 as [|? y ? ys' Ey Hys]; subst.
      rewrite Ey. cbn. apply IH in Hys. now rewrite Hys.
Qed.

End MapM.

(** ** Ranking *)

Section Ranking.
Context {host : Host}.
Import Value.

#[local] Abbreviation by_score :=
  (fun a b : PairingResult.t =>
     JS.sub (PairingResult.score b) (PairingResult.score a)).

Lemma after_int (x y : PairingResult.t) (a b : Z) :
  PairingResult.score x = Int a -> PairingResult.score y = Int b ->
  Arr.after by_score x y = (a <? b).
Proof.
  intros Ex Ey. unfold Arr.after. rewrite Ex, Ey, sub_Int, gt_Int.
  destruct (Z.ltb_spec a b), (Z.ltb_spec 0 (b - a)); auto; lia.
Qed.

Lemma eq_Int_tied (a b : Z) (s : num) :
  JS.eq (Int a) s = true -> JS.eq (Int b) s = true -> a = b.
Proof.
  destruct s as [| | |q]; cbn; try discriminate.
  intros Ha Hb. apply Qeq_bool_iff in Ha, Hb.
  apply inject_Z_injective. now rewrite Ha, Hb.
Qed.

Lemma sort_by_score_stable (s : num) (rs : list PairingResult.t) :
  Forall (fun r => is_int (PairingResult.score r)) rs ->
  with_score s (Arr.sort by_score rs) = with_score s rs.
Proof.
  apply filter_sort. intros x y [a Ea] [b Eb] Hx Hy.
  rewrite (after_int x y a b Ea Eb). rewrite Ea in Hx. rewrite Eb in Hy.
  rewrite (eq_Int_tied a b s Hx Hy). apply Z.ltb_irrefl.
Qed.

Lemma sort_by_score_descending (rs : list PairingResult.t) :
  Forall (fun r => is_int (PairingResult.score r)) rs ->
  descending (Arr.sort by_score rs).
Proof.
  apply sort_sorted.
  - intros x y [a Ea] [b Eb]. rewrite (after_int x y a b Ea Eb), Ea, Eb, ge_Int.
    intros H. apply Z.ltb_lt in H. apply Z.leb_le. lia.
  - intros x y [a Ea] [b Eb]. rewrite (after_int x y a b Ea Eb), Ea, Eb, ge_Int.
    intros H. apply Z.ltb_ge in H. now apply Z.leb_le.
  - intros x y z [a Ea] [b Eb] [c Ec]. rewrite Ea, Eb, Ec, !ge_Int.
    intros H1 H2. apply Z.leb_le in H1, H2. apply Z.leb_le. lia.
Qed.

Lemma scored_results_int (food : value) (wines : list value)
    (results : list PairingResult.t) :
  Forall2 (fun wine r => Engine.scoreOnePair food wine = Ok r) wines results ->
  Forall (fun r => is_int (PairingResult.score r)) results.
Proof.
  induction 1 as [|wine r wines results E _ IH]; constructor; [|exact IH].
  destruct (scoreOnePair_score_range _ _ _ E) as (z & Ez & _). now exists z.
Qed.

Lemma sorted_prefix_of_scored (food : value) (wines : list value)
    (results : list PairingResult.t) :
  Forall2 (fun wine r => Engine.scoreOnePair food wine = Ok r) wines results ->
  ToBoolean food = true ->
  Engine.calculatePairing food (VArr wines)
  = Ok (firstn 3 (Arr.sort by_score results)).
Proof.
  intros F2 Tf. apply mapM_Forall2 in F2.
  unfold Engine.calculatePairing. rewrite Tf. cbn [isArray elements negb orb].
  destruct wines as [|wine wines].
  - cbn in F2. injection F2 as <-. reflexivity.
  - cbn [List.length Nat.eqb].
    change (mapM (fun wine0 => Engine.scoreOnePair food wine0) (wine :: wines))
      with (mapM (Engine.scoreOnePair food) (wine :: wines)).
    rewrite F2. reflexivity.
Qed.

Lemma calculatePairing_absent (food wines : value) :
  ToBoolean food = false -> Engine.calculatePairing food wines = Ok [].
Proof. intros Tf. unfold Engine.calculatePairing. now rewrite Tf. Qed.

(** C3. Whenever every wine of the list can be scored with the food,
    [calculatePairing] returns; it returns at most three results, in
    descending order of score, and for every score the returned results
    with that score are the first ones of the results with that score in
    the order of the wines that produced them. *)
Theorem calculatePairing_ranked (food : value) (wines : list value)
    (results : list PairingResult.t) :
  Forall2 (fun wine r => Engine.scoreOnePair food wine = Ok r) wines results ->
  exists rs,
    Engine.calculatePairing food (VArr wines) = Ok rs
    /\ (List.length rs <= 3)%nat
    /\ descending rs
    /\ (forall s, exists rest, with_score s results = with_score s rs ++ rest)
    /\ (ToBoolean food = true ->
        List.length rs = Nat.min 3 (List.length wines)).
Proof.
  intros F2. destruct (ToBoolean food) eqn:Tf.
  2:{ exists []. split; [now apply calculatePairing_absent|].
      split; [cbn; lia|]. split; [constructor|]. split; [|discriminate].
      intros s. now exists (with_score s results). }
  assert (Hint := scored_results_int _ _ _ F2).
  exists (firstn 3 (Arr.sort by_score results)).
  split; [now apply sorted_prefix_of_scored|].
  split; [apply firstn_le_length|].
  split; [apply firstn_sorted, sort_by_score_descending, Hint|].
  split.
  - intros s. rewrite <- (sort_by_score_stable s results Hint).
    apply filter_firstn.
  - intros _. rewrite length_firstn, (Permutation_length (sort_perm _ results)).
    now rewrite <- (Forall2_length F2).
Qed.

End Ranking.

(** ** More on the rules and the score *)

Section ScoreFacts.
Context {host : Host}.
Import Value.

Lemma reasoning_empty_iff_zero (f : Food.t) (w : Wine.t) :
  (Rule.reasoning (Engine.applyIntensityHarmony f w) = []
   <-> Rule.delta (Engine.applyIntensityHarmony f w) = Int 0)
  /\ (Rule.reasoning (Engine.applyFatBalance f w) = []
      <-> Rule.delta (Engine.applyFatBalance f w) = Int 0)
  /\ (Rule.reasoning (Engine.applyAcidGap f w) = []
      <-> Rule.delta (Engine.applyAcidGap f w) = Int 0)
  /\ (Rule.reasoning (Engine.applySpiceLogic f w) = []
      <-> Rule.delta (Engine.applySpiceLogic f w) = Int 0)
  /\ (Rule.reasoning (Engine.applyUmamiSupport f w) = []
      <-> Rule.delta (Engine.applyUmamiSupport f w) = Int 0)
  /\ (Rule.reasoning (Engine.applyFlavorBridge f w) = []
      <-> Rule.delta (Engine.applyFlavorBridge f w) = Int 0).
Proof.
  assert (T : forall (l : list string) (z : Z),
             z <> 0 -> l <> [] -> (l = [] <-> Int z = Int 0)).
  { intros l z Hz Hl. split; [contradiction|].
    intros E. now apply Int_inj in E. }
  split; [|split; [|split; [|split; [|split]]]].
  - unfold Engine.applyIntensityHarmony.
    destruct (JS.le _ _); [|destruct (JS.ge _ _)]; cbn [Rule.delta Rule.reasoning];
      try (apply T; [lia|discriminate]); tauto.
  - unfold Engine.applyFatBalance.
    destruct (_ && _)%bool; [|destruct (_ && _)%bool];
      cbn [Rule.delta Rule.reasoning];
      try (apply T; [lia|discriminate]); tauto.
  - unfold Engine.applyAcidGap.
    destruct (JS.lt _ _); cbn [Rule.delta Rule.reasoning];
      try (apply T; [lia|discriminate]); tauto.
  - unfold Engine.applySpiceLogic.
    destruct (_ && JS.ge (Wine.alcohol w) _)%bool;
      destruct (_ && JS.ge (Wine.tannin w) _)%bool;
      destruct (_ && JS.ge (Wine.sweetness w) _)%bool;
      cbn [Rule.delta Rule.reasoning]; rewrite ?sub_Int, ?add_Int;
      try (apply T; [lia|discriminate]); tauto.
  - unfold Engine.applyUmamiSupport.
    destruct (_ && _)%bool; cbn [Rule.delta Rule.reasoning];
      try (apply T; [lia|discriminate]); tauto.
  - unfold Engine.applyFlavorBridge.
    destruct (_ && _)%bool; cbn [Rule.delta Rule.reasoning];
      try (apply T; [lia|discriminate]); tauto.
Qed.

(** X1. An additive rule explains every change it makes and nothing else:
    for each of the six, the reasoning is empty exactly when the delta
    is 0. *)
Theorem rules_explain_their_delta (f : Food.t) (w : Wine.t) :
  (Rule.reasoning (Engine.applyIntensityHarmony f w) = []
   <-> Rule.delta (Engine.applyIntensityHarmony f w) = Int 0)
  /\ (Rule.reasoning (Engine.applyFatBalance f w) = []
      <-> Rule.delta (Engine.applyFatBalance f w) = Int 0)
  /\ (Rule.reasoning (Engine.applyAcidGap f w) = []
      <-> Rule.delta (Engine.applyAcidGap f w) = Int 0)
  /\ (Rule.reasoning (Engine.applySpiceLogic f w) = []
      <-> Rule.delta (Engine.applySpiceLogic f w) = Int 0)
  /\ (Rule.reasoning (Engine.applyUmamiSupport f w) = []
      <-> Rule.delta (Engine.applyUmamiSupport f w) = Int 0)
  /\ (Rule.reasoning (Engine.applyFlavorBridge f w) = []
      <-> Rule.delta (Engine.applyFlavorBridge f w) = Int 0).
Proof. exact (reasoning_empty_iff_zero f w). Qed.

Lemma prefix_refl (s : string) : String.prefix s s = true.
Proof.
  induction s as [|c s IH]; [reflexivity|]. cbn.
  destruct (ascii_dec c c) as [_|N]; [exact IH|now destruct N].
Qed.

Lemma includes_refl (s : string) : Str.includes s s = true.
Proof. destruct s; cbn [Str.includes]; now rewrite prefix_refl. Qed.

Lemma name_or_empty (n : string) : str (Value.or (VStr n) (VStr "")) = n.
Proof. unfold Value.or. cbn. now destruct n. Qed.

(** The rule fires when a flavor note is the name of the dish. *)
Lemma bridge_fires_on_name (f : Food.t) (w : Wine.t) :
  In (VStr (Food.name f)) (Wine.flavor_profile w) ->
  Engine.applyFlavorBridge f w =
  {| Rule.delta := Int 5;
     Rule.reasoning := ["Flavor bridge between wine and dish."] |}.
Proof.
  intros Hin. unfold Engine.applyFlavorBridge.
  assert (E : existsb
         (fun flavor =>
            is_string flavor
            && Str.includes
                 (toLowerCase (str (Value.or (VStr (Food.name f)) (VStr ""))))
                 (toLowerCase (str flavor)))%bool (Wine.flavor_profile w) = true).
  { apply existsb_exists. exists (VStr (Food.name f)). split; [assumption|].
    cbn [is_string str andb]. rewrite name_or_empty. apply includes_refl. }
  rewrite E. destruct (Wine.flavor_profile w); [contradiction|reflexivity].
Qed.

(** X2. No pair scores above 93: the bonuses add up to 43 at most, so the
    upper bound 100 of the clamp is never reached.  93 is reached, and so is
    0, by a pair whose deltas sum to -10. *)
Theorem score_at_most_93 :
  (forall (food wine : value) (r : PairingResult.t),
     Engine.scorePairing food wine = Ok r ->
     exists z, PairingResult.score r = Int z /\ 0 <= z <= 93)
  /\ (exists r, Engine.scorePairing best_dish best_wine = Ok r
        /\ PairingResult.score r = Int 93)
  /\ (exists r f w, Engine.scorePairing worst_dish worst_wine = Ok r
        /\ Engine.normalizeFood worst_dish = Ok f
        /\ Engine.normalizeWine worst_wine = Ok w
        /\ Engine.sumOfDeltas f w = Int (-10)
        /\ PairingResult.score r = Int 0).
Proof.
  split; [|split].
  - intros food wine r E. destruct (scorePairing_inv _ _ _ E) as [->|E1].
    + exists 0. split; [reflexivity|lia].
    + exact (scoreOnePair_score_range _ _ _ E1).
  - assert (Ef : Engine.normalizeFood best_dish = Ok best_dish_n) by reflexivity.
    assert (Ew : Engine.normalizeWine best_wine = Ok best_wine_n) by reflexivity.
    rewrite (scorePairing_present best_dish best_wine eq_refl eq_refl).
    rewrite (scoreOnePair_normalized _ _ _ _ Ef Ew).
    eexists. split; [reflexivity|]. cbn [PairingResult.score].
    unfold Engine.clampedSum, Engine.sumOfDeltas.
    rewrite (bridge_fires_on_name best_dish_n best_wine_n) by (now left).
    reflexivity.
  - do 3 eexists. repeat split; reflexivity.
Qed.

Lemma other_rules_not_sweetness (f : Food.t) (w : Wine.t) :
  ~ In "Wine sweetness lower than dish sweetness."
       (Rule.reasoning (Engine.applyIntensityHarmony f w)
        ++ Rule.reasoning (Engine.applyFatBalance f w)
        ++ Rule.reasoning (Engine.applyAcidGap f w)
        ++ Rule.reasoning (Engine.applySpiceLogic f w)
        ++ Rule.reasoning (Engine.applyUmamiSupport f w)
        ++ Rule.reasoning (Engine.applyFlavorBridge f w)).
Proof.
  rewrite !in_app_iff.
  unfold Engine.applyIntensityHarmony, Engine.applyFatBalance,
    Engine.applyAcidGap, Engine.applySpiceLogic, Engine.applyUmamiSupport,
    Engine.applyFlavorBridge.
  intros H.
  repeat match goal with
         | H : _ \/ _ |- _ => destruct H as [H|H]
         end;
    repeat match type of H with
           | context [if ?c then _ else _] => destruct c
           end;
    cbn in H;
    repeat match goal with
           | H : _ \/ _ |- _ => destruct H as [H|H]
           end;
    solve [discriminate H | contradiction].
Qed.

(** X3. For two present records the sweetness message is in the reasoning
    exactly when the normalized wine is less sweet than the normalized food;
    when it is not, the score is the clamped sum, untouched. *)
Theorem sweetness_message_iff (food wine : value) (f : Food.t) (w : Wine.t) :
  ToBoolean food = true -> ToBoolean wine = true ->
  Engine.normalizeFood food = Ok f -> Engine.normalizeWine wine = Ok w ->
  exists r, Engine.scorePairing food wine = Ok r
    /\ (In "Wine sweetness lower than dish sweetness." (PairingResult.reasoning r)
        <-> JS.lt (Wine.sweetness w) (Food.sweetness f) = true)
    /\ (JS.lt (Wine.sweetness w) (Food.sweetness f) = false ->
        PairingResult.score r = Engine.clampedSum f w).
Proof.
  intros Tf Tw Ef Ew.
  rewrite (scorePairing_present _ _ Tf Tw), (scoreOnePair_normalized _ _ _ _ Ef Ew).
  eexists; split; [reflexivity|].
  cbn [PairingResult.score PairingResult.reasoning].
  pose proof (other_rules_not_sweetness f w) as Hn.
  rewrite !in_app_iff in *. unfold Engine.applySweetnessRule.
  destruct (JS.lt _ _); cbn [Cap.cap Cap.reasoning]; split.
  - split; [reflexivity|]. intros _. do 6 right. now left.
  - discriminate.
  - split; [|discriminate]. intros H. exfalso. apply Hn. cbn in H. tauto.
  - reflexivity.
Qed.

(** X4. A result with no reasons has the base score: when the reasoning of
    two present records is empty, the score is exactly 50. *)
Theorem no_reasons_base_score (food wine : value) (r : PairingResult.t) :
  ToBoolean food = true -> ToBoolean wine = true ->
  Engine.scorePairing food wine = Ok r ->
  PairingResult.reasoning r = [] ->
  PairingResult.score r = Int 50.
Proof.
  intros Tf Tw E Hr. rewrite (scorePairing_present _ _ Tf Tw) in E.
  destruct (scoreOnePair_inv _ _ _ E) as (f & w & Ef & Ew).
  rewrite (scoreOnePair_normalized _ _ _ _ Ef Ew) in E. injection E as <-.
  cbn [PairingResult.score PairingResult.reasoning] in *.
  repeat match goal with
         | H : _ ++ _ = [] |- _ =>
             apply app_eq_nil in H; let H1 := fresh "N" in destruct H as [H1 H]
         end.
  destruct (reasoning_empty_iff_zero f w) as (H1 & H2 & H3 & H4 & H5 & H6).
  unfold Engine.clampedSum, Engine.sumOfDeltas, Engine.BASE_SCORE.
  rewrite (proj1 H1), (proj1 H2), (proj1 H3), (proj1 H4), (proj1 H5),
    (proj1 H6) by assumption.
  unfold Engine.applySweetnessRule in *.
  destruct (JS.lt _ _); [discriminate|]. reflexivity.
Qed.

(** X5. The name of a result is a string exactly when the raw [name] of the
    wine is a string or is falsy (missing, [null], [0], [false]); a string
    name is returned as it is. *)
Theorem result_name_string_iff (food wine : value) (r : PairingResult.t) :
  Engine.scoreOnePair food wine = Ok r ->
  is_string (PairingResult.name r)
  = (is_string (prop wine "name") || negb (ToBoolean (prop wine "name")))%bool
  /\ (forall s, prop wine "name" = VStr s -> PairingResult.name r = VStr s).
Proof.
  intros E. rewrite (scoreOnePair_name _ _ _ E).
  split.
  - destruct (prop wine "name") as [| |b|n|s|l|o]; try reflexivity.
    + now destruct b.
    + cbn. destruct n as [| | |q]; try reflexivity. now destruct (Qeq_bool q 0).
  - now intros s ->.
Qed.

End ScoreFacts.

(** ** Exceptions and ranking *)

Section RaisesAndRanks.
Context {host : Host}.
Import Value.

Lemma clamp_converted (v : value) (x min max : num) :
  Engine.clamp v min max = Ok x -> exists n, Number v = Ok n.
Proof. intros E. apply clamp_inv in E. destruct E as (n & E & _). now exists n. Qed.

Lemma normalizeFood_fields (food : value) (f : Food.t) :
  Engine.normalizeFood food = Ok f -> fields_convert food_keys food.
Proof.
  intros E. destruct (normalizeFood_inv _ _ E) as (_ & _ & H1 & H2 & H3 & H4 & H5 & H6).
  unfold fields_convert, food_keys.
  repeat constructor; eapply clamp_converted; eassumption.
Qed.

Lemma normalizeWine_fields (wine : value) (w : Wine.t) :
  Engine.normalizeWine wine = Ok w -> fields_convert wine_keys wine.
Proof.
  intros E. destruct (normalizeWine_inv _ _ E)
    as (_ & _ & H1 & H2 & H3 & H4 & (alc & Ha & _) & (arom & Hr & _) & _).
  unfold fields_convert, wine_keys.
  repeat constructor; try (eapply clamp_converted; eassumption); eauto.
Qed.

Lemma scoreOnePair_returns_iff (food wine : value) :
  (exists r, Engine.scoreOnePair food wine = Ok r)
  <-> nullish food = false /\ nullish wine = false
      /\ fields_convert food_keys food /\ fields_convert wine_keys wine.
Proof.
  split.
  - intros [r E]. destruct (scoreOnePair_inv _ _ _ E) as (f & w & Ef & Ew).
    split; [exact (normalizeFood_nullish _ _ Ef)|].
    split; [exact (normalizeWine_nullish _ _ Ew)|].
    split; [exact (normalizeFood_fields _ _ Ef)|exact (normalizeWine_fields _ _ Ew)].
  - intros (Nf & Nw & Hf & Hw).
    destruct (normalizeFood_converts food Nf Hf) as [f Ef].
    destruct (normalizeWine_converts wine Nw Hw) as [w Ew].
    exact (scoreOnePair_returns _ _ _ _ Ef Ew).
Qed.

Lemma result_cases {A : Type} (r : result A) :
  r = TypeError <-> ~ exists a, r = Ok a.
Proof.
  destruct r as [a|]; split; intros H; try discriminate; auto.
  - destruct H. now exists a.
  - intros [a E]. discriminate.
Qed.

(** X6. [scoreOnePair] returns exactly when the food and the wine are neither
    [null] nor [undefined] and [Number] converts each of their numeric
    fields; in every other case it raises a [TypeError], in particular on a
    [null] or [undefined] record. *)
Theorem scoreOnePair_raises_iff (food wine : value) :
  ((exists r, Engine.scoreOnePair food wine = Ok r)
   <-> nullish food = false /\ nullish wine = false
       /\ fields_convert food_keys food /\ fields_convert wine_keys wine)
  /\ (Engine.scoreOnePair food wine = TypeError
      <-> ~ (nullish food = false /\ nullish wine = false
             /\ fields_convert food_keys food /\ fields_convert wine_keys wine))
  /\ (nullish food = true \/ nullish wine = true ->
      Engine.scoreOnePair food wine = TypeError).
Proof.
  split; [exact (scoreOnePair_returns_iff food wine)|]. split.
  - rewrite result_cases. now rewrite scoreOnePair_returns_iff.
  - intros H. apply result_cases. rewrite scoreOnePair_returns_iff.
    intros (Nf & Nw & _). destruct H as [N|N]; congruence.
Qed.

Lemma mapM_raises_iff {A B : Type} (f : A -> result B) (l : list A) :
  mapM f l = TypeError <-> Exists (fun x => f x = TypeError) l.
Proof.
  induction l as [|x l IH]; cbn.
  - split; [discriminate|]. now inversion 1.
  - destruct (f x) as [y|] eqn:Ey; cbn.
    + destruct (mapM f l) as [ys|]; cbn.
      * split; [discriminate|]. inversion 1 as [? ? Hx|? ? Hl]; subst.
        -- rewrite Ey in Hx. discriminate.
        -- apply IH in Hl. discriminate.
      * split; [|reflexivity]. intros _. apply Exists_cons_tl. now apply IH.
    + split; [|reflexivity]. intros _. now apply Exists_cons_hd.
Qed.

(** X7. [calculatePairing] raises exactly when the food is present and
    scoring some element of the wines array raises: the guard looks at the
    array, not at what it holds, and nothing catches the exception. *)
Theorem calculatePairing_raises_iff (food wines : value) :
  Engine.calculatePairing food wines = TypeError
  <-> ToBoolean food = true
      /\ Exists (fun wine => Engine.scoreOnePair food wine = TypeError)
                (elements wines).
Proof.
  unfold Engine.calculatePairing.
  destruct (ToBoolean food) eqn:Tf; cbn [negb orb].
  2:{ split; [discriminate|]. now intros [? _]. }
  destruct wines as [| | | | |ws|]; cbn [isArray elements negb orb];
    try (split; [discriminate|]; intros [_ H]; now inversion H).
  destruct ws as [|wine ws]; cbn [List.length Nat.eqb].
  { split; [discriminate|]. intros [_ H]. now inversion H. }
  pose proof (mapM_raises_iff (fun wine0 => Engine.scoreOnePair food wine0)
                (wine :: ws)) as M.
  destruct (mapM (fun wine0 => Engine.scoreOnePair food wine0) (wine :: ws))
    as [rs|]; cbn [bind].
  - split; [discriminate|]. intros [_ H]. apply M in H. discriminate.
  - split; [|reflexivity]. intros _. split; [reflexivity|]. now apply M.
Qed.

Lemma sorted_app_le {A : Type} (R : A -> A -> Prop) (l1 l2 : list A) :
  StronglySorted R (l1 ++ l2) ->
  forall x y, In x l1 -> In y l2 -> R x y.
Proof.
  induction l1 as [|a l1 IH]; cbn; intros Hs x y Hx Hy; [contradiction|].
  inversion Hs as [|? ? Hs' Ha]; subst. destruct Hx as [<-|Hx].
  - rewrite Forall_forall in Ha. apply Ha, in_or_app. now right.
  - now apply IH.
Qed.

Lemma Forall2_In_r {A B : Type} (P : A -> B -> Prop) (l : list A) (l' : list B) :
  Forall2 P l l' -> forall y, In y l' -> exists x, In x l /\ P x y.
Proof.
  induction 1 as [|a b l l' Hab _ IH]; cbn; intros y Hy; [contradiction|].
  destruct Hy as [<-|Hy].
  - exists a. auto.
  - destruct (IH y Hy) as (x & Hx & Pxy). exists x. auto.
Qed.

(** X8. The results [calculatePairing] returns are the top ones: on a
    present food and wines that can all be scored, the scored results split
    into the returned ones and the dropped ones, no dropped result scores
    above a returned one, all but three are dropped, and every returned
    result is the scoring of one of the wines. *)
Theorem calculatePairing_top (food : value) (wines : list value)
    (results : list PairingResult.t) :
  ToBoolean food = true ->
  Forall2 (fun wine r => Engine.scoreOnePair food wine = Ok r) wines results ->
  exists rs dropped,
    Engine.calculatePairing food (VArr wines) = Ok rs
    /\ Permutation results (rs ++ dropped)
    /\ List.length dropped = (List.length wines - 3)%nat
    /\ (forall r d, In r rs -> In d dropped ->
          JS.ge (PairingResult.score r) (PairingResult.score d) = true)
    /\ (forall r, In r rs ->
          exists wine, In wine wines /\ Engine.scoreOnePair food wine = Ok r).
Proof.
  intros Tf F2.
  assert (Hint := scored_results_int _ _ _ F2).
  set (sorted := Arr.sort
         (fun a b => JS.sub (PairingResult.score b) (PairingResult.score a))
         results).
  assert (Hp : Permutation sorted results) by apply sort_perm.
  assert (Hs : descending sorted) by now apply sort_by_score_descending.
  exists (firstn 3 sorted), (skipn 3 sorted).
  split; [now apply sorted_prefix_of_scored|].
  split; [now rewrite firstn_skipn|].
  split.
  - rewrite length_skipn, (Permutation_length Hp).
    now rewrite <- (Forall2_length F2).
  - split.
    + intros r d Hr Hd. unfold descending in Hs.
      rewrite <- (firstn_skipn 3 sorted) in Hs.
      exact (sorted_app_le _ _ _ Hs r d Hr Hd).
    + intros r Hr. apply In_firstn in Hr.
      apply (Permutation_in _ Hp) in Hr.
      exact (Forall2_In_r _ _ _ F2 r Hr).
Qed.

(** X9. On one wine the two entry points agree: for a present food and a
    wine that can be scored with it, [calculatePairing] returns the one
    result of scoring the pair, which is also what [scorePairing] returns
    when the wine is truthy. *)
Theorem calculatePairing_one_wine (food wine : value) (r : PairingResult.t) :
  ToBoolean food = true ->
  Engine.scoreOnePair food wine = Ok r ->
  Engine.calculatePairing food (VArr [wine]) = Ok [r]
  /\ (ToBoolean wine = true -> Engine.scorePairing food wine = Ok r).
Proof.
  intros Tf E. split.
  - unfold Engine.calculatePairing. rewrite Tf. cbn. rewrite E. reflexivity.
  - intros Tw. now rewrite (scorePairing_present _ _ Tf Tw).
Qed.

End RaisesAndRanks.

(** ** Normalization, again *)

Section ClampFacts.
Context {host : Host}.
Import Value.

Lemma clamp_finite (q : Q) (lo hi : Z) :
  Engine.clamp (VNum (Fin q)) (Int lo) (Int hi)
  = Ok (Int (Z.max lo (Z.min hi (Qfloor q)))).
Proof.
  rewrite (clamp_ok (VNum (Fin q)) (Fin q)) by reflexivity.
  cbn [JS.Number_isNaN]. now rewrite floor_clamp_finite.
Qed.

(** X10. Normalizing twice is normalizing once: an integer already between
    the bounds is returned as it is, so [clamp] applied to its own result
    changes nothing. *)
Theorem clamp_idempotent (v : value) (lo hi k : Z) :
  lo <= hi ->
  (lo <= k <= hi -> Engine.clamp (VNum (Int k)) (Int lo) (Int hi) = Ok (Int k))
  /\ (forall x, Engine.clamp v (Int lo) (Int hi) = Ok x ->
      Engine.clamp (VNum x) (Int lo) (Int hi) = Ok x).
Proof.
  intros Hle.
  assert (Fix : forall z, lo <= z <= hi ->
            Engine.clamp (VNum (Int z)) (Int lo) (Int hi) = Ok (Int z)).
  { intros z Hz. unfold Int at 1. rewrite clamp_finite, Qfloor_Z.
    do 2 f_equal. lia. }
  split; [apply Fix|].
  intros x E. destruct (clamp_range v lo hi x Hle E) as (z & -> & Hz).
  now apply Fix.
Qed.

(** X11. [clamp] keeps the order of numbers: if [a <= b] (so neither is
    [NaN]), the normalized [a] is at most the normalized [b]. *)
Theorem clamp_monotone (a b : num) (lo hi : Z) :
  lo <= hi -> JS.le a b = true ->
  exists x y,
    Engine.clamp (VNum a) (Int lo) (Int hi) = Ok (Int x)
    /\ Engine.clamp (VNum b) (Int lo) (Int hi) = Ok (Int y)
    /\ x <= y.
Proof.
  intros Hle Hab.
  assert (Ea : Engine.clamp (VNum a) (Int lo) (Int hi)
               = Ok (if JS.Number_isNaN a then Int lo
                     else JS.Math_max (Int lo)
                            (JS.Math_min (Int hi) (JS.Math_floor a))))
    by (now apply clamp_ok).
  assert (Eb : Engine.clamp (VNum b) (Int lo) (Int hi)
               = Ok (if JS.Number_isNaN b then Int lo
                     else JS.Math_max (Int lo)
                            (JS.Math_min (Int hi) (JS.Math_floor b))))
    by (now apply clamp_ok).
  destruct (clamp_range _ lo hi _ Hle Ea) as (x & Ex & Hx).
  destruct (clamp_range _ lo hi _ Hle Eb) as (y & Ey & Hy).
  rewrite Ex in Ea. rewrite Ey in Eb.
  exists x, y. split; [exact Ea|]. split; [exact Eb|].
  destruct a as [| | |p], b as [| | |q]; try discriminate;
    cbn [JS.Number_isNaN JS.Math_floor] in Ex, Ey.
  - change (JS.Math_min (Int hi) PInf) with (Int hi) in *.
    rewrite max_Int in *. apply Int_inj in Ex, Ey. lia.
  - change (JS.Math_max (Int lo) (JS.Math_min (Int hi) NInf)) with (Int lo) in Ex.
    apply Int_inj in Ex. lia.
  - change (JS.Math_max (Int lo) (JS.Math_min (Int hi) NInf)) with (Int lo) in Ex.
    apply Int_inj in Ex. lia.
  - change (JS.Math_max (Int lo) (JS.Math_min (Int hi) NInf)) with (Int lo) in Ex.
    apply Int_inj in Ex. lia.
  - change (JS.Math_min (Int hi) PInf) with (Int hi) in Ey.
    rewrite max_Int in Ey. apply Int_inj in Ey. lia.
  - rewrite min_Int, max_Int in Ex, Ey. apply Int_inj in Ex, Ey.
    cbn in Hab. apply Qle_bool_iff, Qfloor_resp_le in Hab. lia.
Qed.

(** X17. Alcohol and aromatic intensity of a raw finite number are its
    floor brought into 1..5, so a raw 0, a negative number and [null] (which
    converts to 0) give 1, not the defaults 3 and 2 of a value that does not
    convert. *)
Theorem alcohol_of_finite (wine : value) (w : Wine.t) (qa qr : Q) :
  Engine.normalizeWine wine = Ok w ->
  Number (prop wine "alcohol") = Ok (Fin qa) ->
  Number (prop wine "aromatic_intensity") = Ok (Fin qr) ->
  Wine.alcohol w = Int (Z.max 1 (Z.min 5 (Qfloor qa)))
  /\ Wine.aromatic_intensity w = Int (Z.max 1 (Z.min 5 (Qfloor qr)))
  /\ (Qfloor qa <= 1 -> Wine.alcohol w = Int 1)
  /\ (Qfloor qr <= 1 -> Wine.aromatic_intensity w = Int 1).
Proof.
  intros Ew Ea Er.
  destruct (normalizeWine_inv _ _ Ew)
    as (_ & _ & _ & _ & _ & _ & (alc & Ea' & Ha) & (arom & Er' & Hr) & _).
  rewrite Ea in Ea'. injection Ea' as <-. rewrite Er in Er'. injection Er' as <-.
  cbn [JS.Number_isNaN] in Ha, Hr. rewrite floor_clamp_finite in Ha, Hr.
  split; [exact Ha|]. split; [exact Hr|].
  split; intros Hq; [rewrite Ha|rewrite Hr]; f_equal; lia.
Qed.

End ClampFacts.

(** ** Flavor Bridge *)

Section FlavorBridge.
Context {host : Host}.
Import Value.

Lemma prefix_spec (t s : string) :
  String.prefix t s = true <-> exists b, s = (t ++ b)%string.
Proof.
  revert s. induction t as [|c t IH]; intros s.
  - split; [|now destruct s]. intros _. now exists s.
  - destruct s as [|c' s]; cbn.
    + split; [discriminate|]. intros [b [=]].
    + destruct (ascii_dec c c') as [<-|Hn].
      * rewrite IH. split; intros [b E]; exists b.
        -- now rewrite E.
        -- now injection E.
      * split; [discriminate|]. intros [b [= E _]]. now destruct Hn.
Qed.

Lemma includes_spec (s t : string) :
  Str.includes s t = true <-> exists a b, s = (a ++ t ++ b)%string.
Proof.
  induction s as [|c s IH].
  - change (Str.includes "" t) with (String.prefix t "" || false)%bool.
    rewrite orb_false_r, prefix_spec. split.
    + intros [b E]. now exists "", b.
    + intros (a & b & E). destruct a; [now exists b|discriminate].
  - change (Str.includes (String c s) t)
      with (String.prefix t (String c s) || Str.includes s t)%bool.
    rewrite orb_true_iff, prefix_spec, IH. split.
    + intros [[b E]|(a & b & E)].
      * now exists "", b.
      * exists (String c a), b. cbn. now rewrite E.
    + intros (a & b & E). destruct a as [|c' a].
      * left. now exists b.
      * right. injection E as _ E. now exists a, b.
Qed.

Lemma flavor_match_spec (f : Food.t) (w : Wine.t) :
  (ToBoolean (VArr (Wine.flavor_profile w))
   && Nat.ltb 0 (List.length (Wine.flavor_profile w))
   && existsb
        (fun flavor =>
           is_string flavor
           && Str.includes
                (toLowerCase (str (Value.or (VStr (Food.name f)) (VStr ""))))
                (toLowerCase (str flavor)))
        (Wine.flavor_profile w))%bool = true
  <-> exists flavor a b,
        In (VStr flavor) (Wine.flavor_profile w)
        /\ toLowerCase (Food.name f)
           = (a ++ toLowerCase flavor ++ b)%string.
Proof.
  rewrite name_or_empty. cbn [ToBoolean andb]. split.
  - intros H. apply andb_true_iff in H. destruct H as [_ H].
    apply existsb_exists in H. destruct H as (x & Hx & H).
    apply andb_true_iff in H. destruct H as [Hs Hi].
    destruct x as [| | | |flavor| |]; try discriminate.
    apply includes_spec in Hi. destruct Hi as (a & b & E).
    now exists flavor, a, b.
  - intros (flavor & a & b & Hin & E). apply andb_true_iff. split.
    + destruct (Wine.flavor_profile w); [contradiction|reflexivity].
    + apply existsb_exists. exists (VStr flavor). split; [exact Hin|].
      cbn [is_string str andb]. apply includes_spec. now exists a, b.
Qed.

(** X12. Flavor Bridge fires exactly when some string entry of the wine's
    flavor profile, lowercased, occurs in the lowercased name of the food;
    otherwise it gives 0 and no reason.  Entries that are not strings never
    count. *)
Theorem flavor_bridge_iff (f : Food.t) (w : Wine.t) :
  (Engine.applyFlavorBridge f w = bridge_fired
   <-> exists flavor a b,
         In (VStr flavor) (Wine.flavor_profile w)
         /\ toLowerCase (Food.name f)
            = (a ++ toLowerCase flavor ++ b)%string)
  /\ (Engine.applyFlavorBridge f w = bridge_silent
      <-> ~ exists flavor a b,
            In (VStr flavor) (Wine.flavor_profile w)
            /\ toLowerCase (Food.name f)
               = (a ++ toLowerCase flavor ++ b)%string).
Proof.
  rewrite <- (flavor_match_spec f w). unfold Engine.applyFlavorBridge.
  destruct (_ && _)%bool; split; split; intros H;
    try reflexivity; try discriminate H; try (now destruct H).
Qed.

(** X13. A wine whose [flavor_profile] is not an array (missing, or a bare
    string) normalizes to an empty profile and never gets the bonus. *)
Theorem flavor_bridge_needs_array (wine : value) (w : Wine.t) :
  Engine.normalizeWine wine = Ok w ->
  isArray (prop wine "flavor_profile") = false ->
  Wine.flavor_profile w = []
  /\ forall f, Engine.applyFlavorBridge f w = bridge_silent.
Proof.
  intros Ew Ha.
  destruct (normalizeWine_inv _ _ Ew) as (_ & _ & _ & _ & _ & _ & _ & _ & Ep).
  rewrite Ha in Ep. split; [exact Ep|].
  intros f. unfold Engine.applyFlavorBridge. rewrite Ep. reflexivity.
Qed.

End FlavorBridge.

(** ** How the score moves with the wine *)

Section Monotone.
Context {host : Host}.
Import Value.

(** X14. On integer attributes the Fat Balance penalty needs a wine weak in
    tannin as well: the rule gives -10 exactly when the fat is at least 4,
    the acidity at most 1 and the tannin at most 2, and +10 exactly when the
    fat is at least 3 and the acidity or the tannin is at least 3. *)
Theorem fat_balance_iff (f : Food.t) (w : Wine.t) (fat acid tannin : Z) :
  Food.fat_level f = Int fat ->
  Wine.acidity w = Int acid ->
  Wine.tannin w = Int tannin ->
  (Rule.delta (Engine.applyFatBalance f w) = Int (-10)
   <-> 4 <= fat /\ acid <= 1 /\ tannin <= 2)
  /\ (Rule.delta (Engine.applyFatBalance f w) = Int 10
      <-> 3 <= fat /\ (3 <= acid \/ 3 <= tannin)).
Proof.
  intros Ef Ea Et. unfold Engine.applyFatBalance.
  rewrite Ef, Ea, Et, !ge_Int, le_Int.
  destruct (Z.leb_spec 3 fat), (Z.leb_spec 3 acid), (Z.leb_spec 3 tannin),
    (Z.leb_spec 4 fat), (Z.leb_spec acid 1); cbn [andb orb Rule.delta];
    (split; split; intros HH;
       [try (apply Int_inj in HH; discriminate HH); try lia
       |try reflexivity; try lia
       |try (apply Int_inj in HH; discriminate HH); try lia
       |try reflexivity; try lia]).
Qed.

Lemma spice_sweetness_mono (f : Food.t) (w : Wine.t) (s s' : Z) :
  s <= s' ->
  exists d d',
    Rule.delta (Engine.applySpiceLogic f (with_sweetness w (Int s))) = Int d
    /\ Rule.delta (Engine.applySpiceLogic f (with_sweetness w (Int s'))) = Int d'
    /\ d <= d'.
Proof.
  intros Hs. unfold Engine.applySpiceLogic.
  cbn [with_sweetness Wine.alcohol Wine.tannin Wine.sweetness].
  rewrite !ge_Int.
  destruct (JS.ge (Food.spice_heat f) (Int 3));
    destruct (JS.ge (Wine.alcohol w) (Int 4));
    destruct (JS.ge (Wine.tannin w) (Int 4));
    destruct (Z.leb_spec 1 s), (Z.leb_spec 1 s'); try lia;
    cbn [andb Rule.delta]; rewrite ?sub_Int, ?add_Int;
    do 2 eexists; (split; [reflexivity|split; [reflexivity|lia]]).
Qed.

Lemma spice_alcohol_anti (f : Food.t) (w : Wine.t) (a a' : Z) :
  a <= a' ->
  exists d d',
    Rule.delta (Engine.applySpiceLogic f (with_alcohol w (Int a))) = Int d
    /\ Rule.delta (Engine.applySpiceLogic f (with_alcohol w (Int a'))) = Int d'
    /\ d' <= d.
Proof.
  intros Ha. unfold Engine.applySpiceLogic.
  cbn [with_alcohol Wine.alcohol Wine.tannin Wine.sweetness].
  rewrite !ge_Int.
  destruct (JS.ge (Food.spice_heat f) (Int 3));
    destruct (JS.ge (Wine.tannin w) (Int 4));
    destruct (JS.ge (Wine.sweetness w) (Int 1));
    destruct (Z.leb_spec 4 a), (Z.leb_spec 4 a'); try lia;
    cbn [andb Rule.delta]; rewrite ?sub_Int, ?add_Int;
    do 2 eexists; (split; [reflexivity|split; [reflexivity|lia]]).
Qed.

(** X15. A sweeter wine never scores lower: with every other attribute of
    the pair fixed, raising the wine's sweetness from [s] to [s'] does not
    lower the score. *)
Theorem sweeter_wine_scores_no_lower (f : Food.t) (w : Wine.t) (fs s s' : Z) :
  Food.sweetness f = Int fs -> s <= s' ->
  JS.le (cappedScore f (with_sweetness w (Int s)))
        (cappedScore f (with_sweetness w (Int s'))) = true.
Proof.
  intros Ef Hs. unfold cappedScore, Engine.clampedSum, Engine.sumOfDeltas,
    Engine.BASE_SCORE.
  change (Engine.applyIntensityHarmony f (with_sweetness w (Int s)))
    with (Engine.applyIntensityHarmony f w).
  change (Engine.applyIntensityHarmony f (with_sweetness w (Int s')))
    with (Engine.applyIntensityHarmony f w).
  change (Engine.applyFatBalance f (with_sweetness w (Int s)))
    with (Engine.applyFatBalance f w).
  change (Engine.applyFatBalance f (with_sweetness w (Int s')))
    with (Engine.applyFatBalance f w).
  change (Engine.applyAcidGap f (with_sweetness w (Int s)))
    with (Engine.applyAcidGap f w).
  change (Engine.applyAcidGap f (with_sweetness w (Int s')))
    with (Engine.applyAcidGap f w).
  change (Engine.applyUmamiSupport f (with_sweetness w (Int s)))
    with (Engine.applyUmamiSupport f w).
  change (Engine.applyUmamiSupport f (with_sweetness w (Int s')))
    with (Engine.applyUmamiSupport f w).
  change (Engine.applyFlavorBridge f (with_sweetness w (Int s)))
    with (Engine.applyFlavorBridge f w).
  change (Engine.applyFlavorBridge f (with_sweetness w (Int s')))
    with (Engine.applyFlavorBridge f w).
  destruct (applyIntensityHarmony_delta f w) as (d1 & -> & _).
  destruct (applyFatBalance_delta f w) as (d2 & -> & _).
  destruct (applyAcidGap_delta f w) as (d3 & -> & _).
  destruct (applyUmamiSupport_delta f w) as (d5 & -> & _).
  destruct (applyFlavorBridge_delta f w) as (d6 & -> & _).
  destruct (spice_sweetness_mono f w s s' Hs) as (d4 & d4' & -> & -> & Hd).
  rewrite !add_Int, !min_Int, !max_Int.
  unfold Engine.applySweetnessRule. cbn [with_sweetness Wine.sweetness].
  rewrite Ef, !lt_Int.
  destruct (Z.ltb_spec s fs), (Z.ltb_spec s' fs); try lia;
    cbn [Cap.cap]; rewrite ?min_Int, le_Int; apply Z.leb_le; lia.
Qed.

(** X16. A stronger wine never scores higher: with every other attribute of
    the pair fixed, raising the wine's alcohol from [a] to [a'] does not
    raise the score. *)
Theorem stronger_wine_scores_no_higher (f : Food.t) (w : Wine.t) (a a' : Z) :
  a <= a' ->
  JS.le (cappedScore f (with_alcohol w (Int a')))
        (cappedScore f (with_alcohol w (Int a))) = true.
Proof.
  intros Ha. unfold cappedScore, Engine.clampedSum, Engine.sumOfDeltas,
    Engine.BASE_SCORE.
  change (Engine.applyIntensityHarmony f (with_alcohol w (Int a)))
    with (Engine.applyIntensityHarmony f w).
  change (Engine.applyIntensityHarmony f (with_alcohol w (Int a')))
    with (Engine.applyIntensityHarmony f w).
  change (Engine.applyFatBalance f (with_alcohol w (Int a)))
    with (Engine.applyFatBalance f w).
  change (Engine.applyFatBalance f (with_alcohol w (Int a')))
    with (Engine.applyFatBalance f w).
  change (Engine.applyAcidGap f (with_alcohol w (Int a)))
    with (Engine.applyAcidGap f w).
  change (Engine.applyAcidGap f (with_alcohol w (Int a')))
    with (Engine.applyAcidGap f w).
  change (Engine.applyUmamiSupport f (with_alcohol w (Int a)))
    with (Engine.applyUmamiSupport f w).
  change (Engine.applyUmamiSupport f (with_alcohol w (Int a')))
    with (Engine.applyUmamiSupport f w).
  change (Engine.applyFlavorBridge f (with_alcohol w (Int a)))
    with (Engine.applyFlavorBridge f w).
  change (Engine.applyFlavorBridge f (with_alcohol w (Int a')))
    with (Engine.applyFlavorBridge f w).
  change (Engine.applySweetnessRule f (with_alcohol w (Int a)))
    with (Engine.applySweetnessRule f w).
  change (Engine.applySweetnessRule f (with_alcohol w (Int a')))
    with (Engine.applySweetnessRule f w).
  destruct (applyIntensityHarmony_delta f w) as (d1 & -> & _).
  destruct (applyFatBalance_delta f w) as (d2 & -> & _).
  destruct (applyAcidGap_delta f w) as (d3 & -> & _).
  destruct (applyUmamiSupport_delta f w) as (d5 & -> & _).
  destruct (applyFlavorBridge_delta f w) as (d6 & -> & _).
  destruct (spice_alcohol_anti f w a a' Ha) as (d4 & d4' & -> & -> & Hd).
  rewrite !add_Int, !min_Int, !max_Int.
  unfold Engine.applySweetnessRule.
  destruct (JS.lt _ _); cbn [Cap.cap]; rewrite ?min_Int, le_Int;
    apply Z.leb_le; lia.
Qed.

End Monotone.

(** ** The 5-rule engine *)

Section LegacyFacts.
Context {host : Host}.
Import Value.

Lemma legacy_clamp (v : value) (min max : num) :
  Legacy.clamp v min max = Engine.clamp v min max.
Proof. reflexivity. Qed.

Ltac split_legacy H :=
  repeat match type of H with
         | context [bind (Engine.clamp ?v ?a ?b) _] =>
             let E := fresh "C" in
             destruct (Engine.clamp v a b) eqn:E; cbn [bind] in H;
             [|discriminate H]
         | context [bind (Number ?v) _] =>
             let E := fresh "N" in
             destruct (Number v) eqn:E; cbn [bind] in H; [|discriminate H]
         end.

Lemma legacy_normalizeFood_inv (food : value) (lf : Legacy.Food.t) :
  Legacy.normalizeFood food = Ok lf ->
  nullish food = false
  /\ Engine.clamp (prop food "protein_intensity") (Int 0) (Int 5)
     = Ok (Legacy.Food.protein_intensity lf)
  /\ Engine.clamp (prop food "fat_level") (Int 0) (Int 5)
     = Ok (Legacy.Food.fat_level lf)
  /\ Engine.clamp (prop food "acidity") (Int 0) (Int 5)
     = Ok (Legacy.Food.acidity lf)
  /\ Engine.clamp (prop food "sweetness") (Int 0) (Int 5)
     = Ok (Legacy.Food.sweetness lf)
  /\ Engine.clamp (prop food "spice_heat") (Int 0) (Int 5)
     = Ok (Legacy.Food.spice_heat lf)
  /\ Engine.clamp (prop food "umami") (Int 0) (Int 5)
     = Ok (Legacy.Food.umami lf)
  /\ Engine.clamp (coalesce (prop food "texture") (prop food "texture_weight"))
                  (Int 0) (Int 5)
     = Ok (Legacy.Food.texture_weight lf).
Proof.
  intros H. unfold Legacy.normalizeFood, get in H.
  destruct (nullish food) eqn:Nf; [discriminate H|]. cbn [bind] in H.
  unfold Legacy.clamp_min, Legacy.clamp_max in H.
  change (@Legacy.clamp host) with (@Engine.clamp host) in H.
  replace (if nullish (prop food "texture")
           then Ok (prop food "texture_weight") else Ok (prop food "texture"))
    with (Ok (coalesce (prop food "texture") (prop food "texture_weight"))) in H
    by (unfold coalesce; now destruct (nullish (prop food "texture"))).
  cbn [bind] in H. split_legacy H.
  injection H as <-. cbn. repeat split.
Qed.

Lemma legacy_normalizeFood_ok (food : value) (f : Food.t) (x : num) :
  Engine.normalizeFood food = Ok f ->
  Engine.clamp (coalesce (prop food "texture") (prop food "texture_weight"))
               (Int 0) (Int 5) = Ok x ->
  Legacy.normalizeFood food
  = Ok {| Legacy.Food.protein_intensity := Food.protein_intensity f;
          Legacy.Food.fat_level := Food.fat_level f;
          Legacy.Food.acidity := Food.acidity f;
          Legacy.Food.sweetness := Food.sweetness f;
          Legacy.Food.spice_heat := Food.spice_heat f;
          Legacy.Food.umami := Food.umami f;
          Legacy.Food.texture_weight := x |}.
Proof.
  intros Ef Ex.
  destruct (normalizeFood_inv _ _ Ef) as (Nf & _ & E1 & E2 & E3 & E4 & E5 & E6).
  unfold Legacy.normalizeFood. rewrite !(get_present _ _ Nf).
  unfold Legacy.clamp_min, Legacy.clamp_max.
  change (@Legacy.clamp host) with (@Engine.clamp host).
  cbn [bind]. rewrite E1. cbn [bind]. rewrite E2. cbn [bind]. rewrite E3.
  cbn [bind]. rewrite E4. cbn [bind]. rewrite E5. cbn [bind]. rewrite E6.
  cbn [bind].
  replace (if nullish (prop food "texture")
           then Ok (prop food "texture_weight") else Ok (prop food "texture"))
    with (Ok (coalesce (prop food "texture") (prop food "texture_weight")))
    by (unfold coalesce; now destruct (nullish (prop food "texture"))).
  cbn [bind]. rewrite Ex. reflexivity.
Qed.

Lemma legacy_normalizeWine_inv (wine : value) (lw : Legacy.Wine.t) :
  Legacy.normalizeWine wine = Ok lw ->
  nullish wine = false
  /\ Engine.clamp (prop wine "body") (Int 0) (Int 5) = Ok (Legacy.Wine.body lw)
  /\ Engine.clamp (prop wine "tannin") (Int 0) (Int 5) = Ok (Legacy.Wine.tannin lw)
  /\ Engine.clamp (prop wine "acidity") (Int 0) (Int 5) = Ok (Legacy.Wine.acidity lw)
  /\ Engine.clamp (prop wine "sweetness") (Int 0) (Int 5)
     = Ok (Legacy.Wine.sweetness lw)
  /\ (exists alc, Number (prop wine "alcohol") = Ok alc
        /\ Legacy.Wine.alcohol lw =
           (if JS.Number_isNaN alc then Int 3
            else JS.Math_max (Int 1) (JS.Math_min (Int 5) (JS.Math_floor alc))))
  /\ (exists arom, Number (prop wine "aromatic_intensity") = Ok arom).
Proof.
  intros H. unfold Legacy.normalizeWine, get in H.
  destruct (nullish wine) eqn:Nw; [discriminate H|]. cbn [bind] in H.
  unfold Legacy.clamp_min, Legacy.clamp_max in H.
  change (@Legacy.clamp host) with (@Engine.clamp host) in H. split_legacy H.
  injection H as <-. cbn. repeat split; eauto.
Qed.

Lemma legacy_normalizeWine_ok (wine : value) (w : Wine.t) :
  Engine.normalizeWine wine = Ok w ->
  Legacy.normalizeWine wine
  = Ok {| Legacy.Wine.body := Wine.body w;
          Legacy.Wine.tannin := Wine.tannin w;
          Legacy.Wine.acidity := Wine.acidity w;
          Legacy.Wine.alcohol := Wine.alcohol w;
          Legacy.Wine.sweetness := Wine.sweetness w;
          Legacy.Wine.aromatic_intensity := Wine.aromatic_intensity w |}.
Proof.
  intros Ew.
  destruct (normalizeWine_inv _ _ Ew)
    as (Nw & _ & E1 & E2 & E3 & E4 & (alc & Ea & Ha) & (arom & Er & Hr) & _).
  unfold Legacy.normalizeWine. rewrite !(get_present _ _ Nw).
  unfold Legacy.clamp_min, Legacy.clamp_max.
  change (@Legacy.clamp host) with (@Engine.clamp host).
  cbn [bind]. rewrite Ea. cbn [bind]. rewrite Er. cbn [bind]. rewrite E1.
  cbn [bind]. rewrite E2. cbn [bind]. rewrite E3. cbn [bind]. rewrite E4.
  cbn [bind]. now rewrite Ha, Hr.
Qed.

(** The 5-rule score is the sum before the clamp, clamped and capped. *)
Lemma legacy_scorePairing_normalized
    (food wine : value) (lf : Legacy.Food.t) (lw : Legacy.Wine.t) :
  Legacy.normalizeFood food = Ok lf -> Legacy.normalizeWine wine = Ok lw ->
  Legacy.scorePairing food wine
  = Ok (let score :=
          JS.Math_max (Int 0) (JS.Math_min (Int 100) (Legacy.sumOfDeltas lf lw)) in
        if JS.lt (Legacy.Wine.sweetness lw) (Legacy.Food.sweetness lf)
        then JS.Math_min score Legacy.SWEETNESS_CAP else score).
Proof.
  intros Ef Ew. unfold Legacy.scorePairing. rewrite Ef, Ew. reflexivity.
Qed.

Lemma legacy_scorePairing_inv (food wine : value) (s : num) :
  Legacy.scorePairing food wine = Ok s ->
  exists lf lw, Legacy.normalizeFood food = Ok lf
    /\ Legacy.normalizeWine wine = Ok lw.
Proof.
  intros H. unfold Legacy.scorePairing in H.
  destruct (Legacy.normalizeFood food) as [lf|]; [|discriminate H].
  destruct (Legacy.normalizeWine wine) as [lw|]; [|discriminate H].
  now exists lf, lw.
Qed.

Lemma legacy_sum_range (lf : Legacy.Food.t) (lw : Legacy.Wine.t) :
  int_in 5 75 (Legacy.sumOfDeltas lf lw).
Proof.
  unfold Legacy.sumOfDeltas, Legacy.BASE_SCORE, Legacy.ACID_GAP_PENALTY,
    Legacy.SPICE_ALCOHOL_PENALTY, Legacy.SPICE_TANNIN_PENALTY,
    Legacy.FAT_BALANCE_BONUS, Legacy.INTENSITY_HARMONY_BONUS.
  cbv zeta.
  destruct (JS.lt (JS.add _ _) _);
    destruct (JS.ge (Legacy.Food.spice_heat lf) (Int 3));
    destruct (JS.ge (Legacy.Wine.alcohol lw) (Int 4));
    destruct (JS.ge (Legacy.Wine.tannin lw) (Int 4));
    destruct (JS.ge (Legacy.Food.fat_level lf) (Int 3) && _)%bool;
    destruct (JS.le _ _); cbn [andb];
    rewrite ?sub_Int, ?add_Int;
    eexists; (split; [reflexivity|lia]).
Qed.

Lemma legacy_score_int (food wine : value) (s : num) :
  Legacy.scorePairing food wine = Ok s -> int_in 5 75 s.
Proof.
  intros E. destruct (legacy_scorePairing_inv _ _ _ E) as (lf & lw & Ef & Ew).
  rewrite (legacy_scorePairing_normalized _ _ _ _ Ef Ew) in E.
  apply Ok_inj in E. subst s. cbv zeta.
  destruct (legacy_sum_range lf lw) as (z & -> & Hz).
  unfold Legacy.SWEETNESS_CAP. rewrite min_Int, max_Int.
  destruct (JS.lt _ _); rewrite ?min_Int; eexists; (split; [reflexivity|lia]).
Qed.

(** X18. Whenever the 5-rule [scorePairing] returns, the sum of its deltas is
    an integer between 5 and 75 (its penalties sum to 45 and its bonuses to
    25), so its clamp to 0..100 leaves the sum as it is, and the score it
    returns is that sum, or the smaller of the sum and 40 under the
    sweetness cap: an integer between 5 and 75. *)
Theorem legacy_score_range (food wine : value) (s : num) :
  Legacy.scorePairing food wine = Ok s ->
  exists lf lw z,
    Legacy.normalizeFood food = Ok lf /\ Legacy.normalizeWine wine = Ok lw
    /\ Legacy.sumOfDeltas lf lw = Int z /\ 5 <= z <= 75
    /\ JS.Math_max (Int 0) (JS.Math_min (Int 100) (Legacy.sumOfDeltas lf lw))
       = Legacy.sumOfDeltas lf lw
    /\ s = (if JS.lt (Legacy.Wine.sweetness lw) (Legacy.Food.sweetness lf)
            then Int (Z.min z 40) else Int z)
    /\ int_in 5 75 s.
Proof.
  intros E. destruct (legacy_scorePairing_inv _ _ _ E) as (lf & lw & Ef & Ew).
  destruct (legacy_sum_range lf lw) as (z & Ez & Hz).
  exists lf, lw, z. split; [exact Ef|]. split; [exact Ew|].
  split; [exact Ez|]. split; [exact Hz|].
  split; [rewrite Ez, min_Int, max_Int; f_equal; lia|].
  split; [|exact (legacy_score_int _ _ _ E)].
  rewrite (legacy_scorePairing_normalized _ _ _ _ Ef Ew) in E.
  apply Ok_inj in E. subst s. cbv zeta. rewrite Ez, min_Int, max_Int.
  unfold Legacy.SWEETNESS_CAP.
  destruct (JS.lt _ _); rewrite ?min_Int; f_equal; lia.
Qed.

Lemma legacy_scorePairing_nullish (food wine : value) :
  nullish food = true \/ nullish wine = true ->
  Legacy.scorePairing food wine = TypeError.
Proof.
  assert (Rf : forall v, nullish v = true -> Legacy.normalizeFood v = TypeError).
  { intros v N. unfold Legacy.normalizeFood, get. now rewrite N. }
  assert (Rw : forall v, nullish v = true -> Legacy.normalizeWine v = TypeError).
  { intros v N. unfold Legacy.normalizeWine, get. now rewrite N. }
  unfold Legacy.scorePairing. intros [N|N].
  - now rewrite (Rf _ N).
  - rewrite (Rw _ N). now destruct (Legacy.normalizeFood food).
Qed.

(** X19. The 5-rule [scorePairing] has no guard: on a food or a wine that is
    [null] or [undefined] it raises, where the 7-rule [scorePairing] returns
    its zero result.  It also raises on a food whose [texture] cannot be
    converted, a field the 7-rule engine never reads. *)
Theorem legacy_scorePairing_unguarded (food wine : value) :
  (nullish food = true \/ nullish wine = true ->
   Legacy.scorePairing food wine = TypeError
   /\ Engine.scorePairing food wine =
      Ok {| PairingResult.name := VStr "";
            PairingResult.score := Int 0;
            PairingResult.reasoning := [] |})
  /\ (Number (coalesce (prop food "texture") (prop food "texture_weight"))
      = TypeError ->
      Legacy.scorePairing food wine = TypeError).
Proof.
  split.
  - intros H. split; [now apply legacy_scorePairing_nullish|].
    unfold Engine.scorePairing. destruct H as [N|N].
    + now destruct food.
    + destruct wine; try discriminate N; now rewrite orb_true_r.
  - intros N. destruct (Legacy.scorePairing food wine) as [s|] eqn:E; [|reflexivity].
    destruct (legacy_scorePairing_inv _ _ _ E) as (lf & lw & Ef & _).
    destruct (legacy_normalizeFood_inv _ _ Ef) as (_ & _ & _ & _ & _ & _ & _ & Et).
    apply clamp_inv in Et. destruct Et as (n & En & _). congruence.
Qed.

(** X20. The two engines agree wherever the five things only the 7-rule
    engine knows stay silent (no intensity penalty, no fat penalty, no
    sweetness bonus in Spice Logic, no Umami Support, no Flavor Bridge):
    whatever the 5-rule engine returns there is the 7-rule score, and it
    does return exactly when the food's texture converts. *)
Theorem engines_agree_when_extras_silent
    (food wine : value) (f : Food.t) (w : Wine.t) :
  ToBoolean food = true -> ToBoolean wine = true ->
  Engine.normalizeFood food = Ok f -> Engine.normalizeWine wine = Ok w ->
  Rule.delta (Engine.applyIntensityHarmony f w) <> Int (-15) ->
  Rule.delta (Engine.applyFatBalance f w) <> Int (-10) ->
  (JS.ge (Food.spice_heat f) (Int 3) && JS.ge (Wine.sweetness w) (Int 1))%bool
  = false ->
  Rule.delta (Engine.applyUmamiSupport f w) = Int 0 ->
  Rule.delta (Engine.applyFlavorBridge f w) = Int 0 ->
  exists r, Engine.scorePairing food wine = Ok r
    /\ (forall s, Legacy.scorePairing food wine = Ok s ->
          s = PairingResult.score r)
    /\ (Legacy.scorePairing food wine = Ok (PairingResult.score r)
        <-> exists n,
              Number (coalesce (prop food "texture") (prop food "texture_weight"))
              = Ok n).
Proof.
  intros Tf Tw Ef Ew Hi Hf Hs Hu Hb.
  rewrite (scorePairing_present _ _ Tf Tw), (scoreOnePair_normalized _ _ _ _ Ef Ew).
  eexists; split; [reflexivity|]. cbn [PairingResult.score].
  assert (Agree : forall x,
            Engine.clamp (coalesce (prop food "texture") (prop food "texture_weight"))
                         (Int 0) (Int 5) = Ok x ->
            Legacy.scorePairing food wine
            = Ok match Cap.cap (Engine.applySweetnessRule f w) with
                 | Some cap => JS.Math_min (Engine.clampedSum f w) cap
                 | None => Engine.clampedSum f w
                 end).
  { intros x Ex.
    rewrite (legacy_scorePairing_normalized _ _ _ _
               (legacy_normalizeFood_ok _ _ _ Ef Ex) (legacy_normalizeWine_ok _ _ Ew)).
    cbv zeta. f_equal.
    unfold Legacy.sumOfDeltas, Legacy.BASE_SCORE, Legacy.ACID_GAP_PENALTY,
      Legacy.SPICE_ALCOHOL_PENALTY, Legacy.SPICE_TANNIN_PENALTY,
      Legacy.FAT_BALANCE_BONUS, Legacy.INTENSITY_HARMONY_BONUS,
      Legacy.SWEETNESS_CAP.
    cbn [Legacy.Food.protein_intensity Legacy.Food.fat_level Legacy.Food.acidity
         Legacy.Food.sweetness Legacy.Food.spice_heat Legacy.Wine.body
         Legacy.Wine.tannin Legacy.Wine.acidity Legacy.Wine.alcohol
         Legacy.Wine.sweetness].
    unfold Engine.clampedSum, Engine.sumOfDeltas, Engine.BASE_SCORE.
    rewrite Hu, Hb.
    unfold Engine.applySpiceLogic. rewrite Hs.
    unfold Engine.applyIntensityHarmony in *.
    unfold Engine.applyFatBalance in *.
    unfold Engine.applyAcidGap, Engine.applySweetnessRule.
    destruct (JS.le _ (Int 1));
      [|destruct (JS.ge _ (Int 3)); [now contradiction Hi|]];
      (destruct (JS.ge (Food.fat_level f) (Int 3) && _)%bool;
       [|destruct (JS.ge (Food.fat_level f) (Int 4) && _)%bool;
         [now contradiction Hf|]]);
      destruct (JS.lt (JS.add _ _) _);
      destruct (JS.ge (Food.spice_heat f) (Int 3));
      destruct (JS.ge (Wine.alcohol w) (Int 4));
      destruct (JS.ge (Wine.tannin w) (Int 4));
      destruct (JS.lt _ _); reflexivity. }
  assert (Conv : forall s, Legacy.scorePairing food wine = Ok s ->
            exists x,
              Engine.clamp (coalesce (prop food "texture") (prop food "texture_weight"))
                           (Int 0) (Int 5) = Ok x).
  { intros s E. destruct (legacy_scorePairing_inv _ _ _ E) as (lf & lw & El & _).
    destruct (legacy_normalizeFood_inv _ _ El) as (_ & _ & _ & _ & _ & _ & _ & Et).
    eexists; exact Et. }
  split.
  - intros s E. destruct (Conv s E) as [x Ex]. rewrite (Agree x Ex) in E.
    now injection E.
  - split.
    + intros E. destruct (Conv _ E) as [x Ex]. apply clamp_inv in Ex.
      destruct Ex as (n & En & _). now exists n.
    + intros [n En]. apply (Agree _ (clamp_ok _ _ _ _ En)).
Qed.

#[local] Abbreviation by_legacy_score :=
  (fun a b : Legacy.Scored.t =>
     JS.sub (Legacy.Scored.score b) (Legacy.Scored.score a)).

Lemma legacy_after_int (x y : Legacy.Scored.t) (a b : Z) :
  Legacy.Scored.score x = Int a -> Legacy.Scored.score y = Int b ->
  Arr.after by_legacy_score x y = (a <? b).
Proof.
  intros Ex Ey. unfold Arr.after. rewrite Ex, Ey, sub_Int, gt_Int.
  destruct (Z.ltb_spec a b), (Z.ltb_spec 0 (b - a)); auto; lia.
Qed.

Lemma legacy_sort_descending (rs : list Legacy.Scored.t) :
  Forall (fun e => is_int (Legacy.Scored.score e)) rs ->
  StronglySorted
    (fun a b => JS.ge (Legacy.Scored.score a) (Legacy.Scored.score b) = true)
    (Arr.sort by_legacy_score rs).
Proof.
  apply sort_sorted.
  - intros x y [a Ea] [b Eb]. rewrite (legacy_after_int x y a b Ea Eb), Ea, Eb, ge_Int.
    intros H. apply Z.ltb_lt in H. apply Z.leb_le. lia.
  - intros x y [a Ea] [b Eb]. rewrite (legacy_after_int x y a b Ea Eb), Ea, Eb, ge_Int.
    intros H. apply Z.ltb_ge in H. now apply Z.leb_le.
  - intros x y z [a Ea] [b Eb] [c Ec]. rewrite Ea, Eb, Ec, !ge_Int.
    intros H1 H2. apply Z.leb_le in H1, H2. apply Z.leb_le. lia.
Qed.

(** X21. Whenever the 5-rule [scorePairing] returns on the food and every
    wine, the 5-rule [calculatePairing] ranks every wine: it returns as many
    entries as there are wines, each carrying one of the wines and its
    score, in descending order of score, and the wines of the entries are
    the input wines in another order. *)
Theorem legacy_calculatePairing_ranks_all (food : value) (wines : list value)
    (scores : list num) :
  Forall2 (fun wine s => Legacy.scorePairing food wine = Ok s) wines scores ->
  exists rs,
    Legacy.calculatePairing food (VArr wines) = Ok rs
    /\ List.length rs = List.length wines
    /\ Permutation (map Legacy.Scored.wine rs) wines
    /\ Forall (fun e => Legacy.scorePairing food (Legacy.Scored.wine e)
                        = Ok (Legacy.Scored.score e)) rs
    /\ StronglySorted
         (fun a b => JS.ge (Legacy.Scored.score a) (Legacy.Scored.score b) = true)
         rs.
Proof.
  intros F2.
  set (score1 := fun wine =>
         score <- Legacy.scorePairing food wine ;;
         Ok {| Legacy.Scored.wine := wine; Legacy.Scored.score := score |}).
  assert (All : exists results, mapM score1 wines = Ok results
            /\ map Legacy.Scored.wine results = wines
            /\ Forall (fun e => is_int (Legacy.Scored.score e)) results
            /\ Forall (fun e => Legacy.scorePairing food (Legacy.Scored.wine e)
                                = Ok (Legacy.Scored.score e)) results).
  { induction F2 as [|wine s wines scores Es _ IH].
    - exists []. repeat split; constructor.
    - destruct IH as (results & E & Em & Hi & Hsc).
      destruct (legacy_score_int _ _ _ Es) as (z & Ez & _).
      exists ({| Legacy.Scored.wine := wine; Legacy.Scored.score := s |} :: results).
      cbn [mapM]. unfold score1 at 1. rewrite Es. cbn [bind]. rewrite E.
      cbn [bind map Legacy.Scored.wine].
      split; [reflexivity|]. split; [now rewrite Em|].
      split; constructor; auto. now exists z. }
  destruct All as (results & E & Em & Hi & Hsc).
  pose proof (sort_perm by_legacy_score results) as Hp.
  exists (Arr.sort by_legacy_score results).
  split.
  - unfold Legacy.calculatePairing. cbn [isArray elements negb orb].
    destruct wines as [|wine wines].
    + cbn in E. injection E as <-. reflexivity.
    + cbn [List.length Nat.eqb]. fold score1. rewrite E. reflexivity.
  - split; [rewrite (Permutation_length Hp), <- Em; symmetry; apply length_map|].
    split; [rewrite <- Em; now apply Permutation_map|].
    split; [|now apply legacy_sort_descending].
    apply Forall_forall. intros e He. rewrite Forall_forall in Hsc.
    apply Hsc. now apply (Permutation_in _ Hp).
Qed.

(** X22. The 5-rule [calculatePairing] has no guard on the food: with a
    [null] or [undefined] food and at least one wine it raises, where the
    7-rule one returns the empty array. *)
Theorem legacy_calculatePairing_null_food (food wine : value) (wines : list value) :
  nullish food = true ->
  Legacy.calculatePairing food (VArr (wine :: wines)) = TypeError
  /\ Engine.calculatePairing food (VArr (wine :: wines)) = Ok [].
Proof.
  intros N. split.
  - unfold Legacy.calculatePairing. cbn [isArray elements negb orb List.length Nat.eqb mapM].
    rewrite (legacy_scorePairing_nullish food wine (or_introl N)).
    reflexivity.
  - unfold Engine.calculatePairing. now destruct food.
Qed.

End LegacyFacts.

(** ** The click handler *)

Section Handler.
Context {host : Host}.
Import Value.

Lemma strict_eq_string_true (v : value) (sel : string) :
  UI.strict_eq_string v sel = true <-> v = VStr sel.
Proof.
  destruct v as [| | | |s| |]; cbn; try (split; discriminate).
  rewrite String.eqb_eq. split; [now intros ->|now intros [= ->]].
Qed.

Lemma find_skips (sel : string) (before rest : list value) :
  Forall (other_dish sel) before ->
  UI.find (fun f => name <- get f "name" ;;
                    Ok (UI.strict_eq_string name sel)) (before ++ rest)
  = UI.find (fun f => name <- get f "name" ;;
                      Ok (UI.strict_eq_string name sel)) rest.
Proof.
  induction 1 as [|f before [Nf Hn] _ IH]; [reflexivity|].
  cbn [app UI.find]. rewrite (get_present _ _ Nf). cbn [bind].
  destruct (UI.strict_eq_string (prop f "name") sel) eqn:E; [|exact IH].
  apply strict_eq_string_true in E. contradiction.
Qed.


Lemma selection_truthy (sel : string) : sel <> "" -> ToBoolean (VStr sel) = true.
Proof. intros H. cbn. now destruct sel. Qed.

(** X23. The handler reports a missing selection and an unknown dish: with
    an empty selection it shows "Please select a dish."; with a selection
    that names none of the food records it shows "Selected dish not
    found."; in neither case does it rank anything. *)
Theorem handler_rejects_selection (foods : list value) (wines : value)
    (sel : string) :
  UI.onCalculate foods wines "" = Ok (UI.Alert "Please select a dish.")
  /\ (sel <> "" -> Forall (other_dish sel) foods ->
      UI.onCalculate foods wines sel = Ok (UI.Alert "Selected dish not found.")).
Proof.
  split; [reflexivity|]. intros Hs Hf. unfold UI.onCalculate.
  rewrite (selection_truthy _ Hs). cbn [negb].
  rewrite <- (app_nil_r foods), (find_skips sel foods [] Hf). reflexivity.
Qed.


End Handler.

(** ** The claims at concrete records *)

#[local] Existing Instance example_host.
Import Value.

(** The first worked example of the specification scores 65. *)
Example steak_big_red :
  Engine.scorePairing Sample.steak Sample.big_red =
  Ok {| PairingResult.name := VStr "";
        PairingResult.score := Int 65;
        PairingResult.reasoning := ["Wine body aligns with protein intensity."] |}.
Proof. reflexivity. Qed.

(** [null] and [false] convert to 0, not to [NaN]: such an alcohol is raised
    to 1, it does not take the default 3. *)
Example alcohol_null :
  exists w, Engine.normalizeWine (VObj [("alcohol", VNull)]) = Ok w
    /\ Wine.alcohol w = Int 1.
Proof. eexists; split; reflexivity. Qed.

(** A [null] among the wines makes [calculatePairing] raise, and so does a
    wine one of whose fields cannot be converted. *)
Example calculatePairing_null_wine :
  Engine.calculatePairing Sample.plain_dish (VArr [VNull]) = TypeError.
Proof. reflexivity. Qed.

Example calculatePairing_stubborn_wine :
  Engine.calculatePairing Sample.plain_dish (VArr [Sample.stubborn_wine])
  = TypeError
  /\ Engine.scorePairing Sample.plain_dish Sample.stubborn_wine = TypeError.
Proof. split; reflexivity. Qed.

Lemma scorePairing_score_range_witness :
  exists r z, Engine.scorePairing Sample.steak Sample.big_red = Ok r
    /\ PairingResult.score r = Int z /\ 0 <= z <= 100.
Proof.
  destruct (scorePairing_score_range Sample.steak Sample.big_red) as [Hrange Hret].
  destruct Hret as [r E].
  - repeat constructor; eexists; reflexivity.
  - repeat constructor; eexists; reflexivity.
  - destruct (Hrange r E) as (z & Hz & Hb). now exists r, z.
Defined.

Lemma sweetness_cap_witness :
  exists r, Engine.scorePairing Sample.dessert Sample.thin_dry = Ok r
    /\ JS.le (PairingResult.score r) (Int 40) = true
    /\ In "Wine sweetness lower than dish sweetness." (PairingResult.reasoning r).
Proof.
  destruct (sweetness_cap Sample.dessert Sample.thin_dry
              Sample.dessert_n Sample.thin_dry_n
              eq_refl eq_refl eq_refl eq_refl eq_refl)
    as (r & E & H1 & H2 & _).
  exists r. auto.
Defined.

Lemma calculatePairing_ranked_witness :
  exists rs, Engine.calculatePairing Sample.plain_dish (VArr Sample.cellar) = Ok rs
    /\ (List.length rs <= 3)%nat /\ descending rs.
Proof.
  assert (F2 : exists results,
             Forall2 (fun wine r => Engine.scoreOnePair Sample.plain_dish wine = Ok r)
                     Sample.cellar results).
  { eexists. repeat (constructor; [reflexivity|]). constructor. }
  destruct F2 as [results F2].
  destruct (calculatePairing_ranked Sample.plain_dish Sample.cellar results F2)
    as (rs & E & L & D & _).
  exists rs. auto.
Defined.

(** On the four wines above the ties keep the order of the cellar: [a]
    before [c], and [b] (the first of the two that score 35) is third. *)
Example cellar_ranking :
  exists rs, Engine.calculatePairing Sample.plain_dish (VArr Sample.cellar) = Ok rs
    /\ map (fun r => (PairingResult.name r, PairingResult.score r)) rs
       = [(VStr "a", Int 65); (VStr "c", Int 65); (VStr "b", Int 35)].
Proof. eexists; split; reflexivity. Qed.

Lemma absent_inputs_witness :
  Engine.calculatePairing VNull (VStr "not-an-array") = Ok []
  /\ Engine.scorePairing VNull VUndefined =
     Ok {| PairingResult.name := VStr "";
           PairingResult.score := Int 0;
           PairingResult.reasoning := [] |}.
Proof.
  destruct (absent_inputs VNull VUndefined (VStr "not-an-array")) as [H1 H2].
  split; [apply H1|apply H2]; left; reflexivity.
Defined.



(** The sweetness message closes the reasoning of a pair whose score the
    rules had already brought to 15, below the cap. *)
Lemma reasoning_in_rule_order_witness :
  Engine.clampedSum Sample.dessert_n Sample.thin_dry_n = Int 15
  /\ exists r, Engine.scorePairing Sample.dessert Sample.thin_dry = Ok r
       /\ PairingResult.reasoning r =
          ["Wine body misaligned with dish intensity.";
           "Wine acidity too low for dish brightness."]
          ++ ["Wine sweetness lower than dish sweetness."].
Proof.
  split; [reflexivity|].
  destruct (reasoning_in_rule_order Sample.dessert Sample.thin_dry
              Sample.dessert_n Sample.thin_dry_n
              eq_refl eq_refl eq_refl eq_refl)
    as (r & E & _ & H).
  destruct (H eq_refl) as (before & Hr & ->).
  exists r. split; [exact E|exact Hr].
Defined.

Lemma spice_logic_witness :
  Engine.applySpiceLogic Sample.curry Sample.hot_red =
  {| Rule.delta := Int (-17);
     Rule.reasoning := ["High alcohol clashes with spice heat.";
                        "Tannins amplified by spice.";
                        "Slight sweetness softens spice."] |}.
Proof.
  apply (spice_logic_accumulates Sample.curry Sample.hot_red); reflexivity.
Defined.

Lemma flavor_bridge_witness :
  exists f w,
    Engine.normalizeFood (VObj []) = Ok f
    /\ Engine.normalizeWine Sample.blank_note = Ok w
    /\ Engine.applyFlavorBridge f w =
       {| Rule.delta := Int 5;
          Rule.reasoning := ["Flavor bridge between wine and dish."] |}.
Proof.
  do 2 eexists. split; [reflexivity|]. split; [reflexivity|].
  apply (flavor_bridge_empty_entry (VObj []) Sample.blank_note _ _
           [VStr "oak"; VStr ""]); [reflexivity|reflexivity|reflexivity|].
  right. now left.
Defined.

(** ** The further properties at concrete records *)

Lemma sweetness_message_witness :
  exists r, Engine.scorePairing Sample.steak Sample.big_red = Ok r
    /\ ~ In "Wine sweetness lower than dish sweetness." (PairingResult.reasoning r)
    /\ PairingResult.score r = Int 65.
Proof.
  destruct (sweetness_message_iff Sample.steak Sample.big_red steak_n big_red_n
              eq_refl eq_refl eq_refl eq_refl) as (r & E & Hiff & Hs).
  exists r. split; [exact E|]. split.
  - intros Hin. apply Hiff in Hin. discriminate Hin.
  - rewrite (Hs eq_refl). reflexivity.
Defined.

Lemma no_reasons_witness :
  exists r, Engine.scorePairing quiet_dish quiet_wine = Ok r
    /\ PairingResult.score r = Int 50.
Proof.
  eexists. split; [reflexivity|].
  apply (no_reasons_base_score quiet_dish quiet_wine); reflexivity.
Defined.

Lemma result_name_witness :
  exists r, Engine.scoreOnePair quiet_dish Sample.numbered = Ok r
    /\ is_string (PairingResult.name r) = false.
Proof.
  eexists. split; [reflexivity|].
  destruct (result_name_string_iff quiet_dish Sample.numbered _ eq_refl) as [H _].
  exact H.
Defined.

Lemma scoreOnePair_raises_witness :
  Engine.scoreOnePair quiet_dish VNull = TypeError
  /\ Engine.scoreOnePair quiet_dish Sample.stubborn_wine = TypeError
  /\ exists r, Engine.scoreOnePair quiet_dish (VStr "") = Ok r.
Proof.
  split; [|split].
  - destruct (scoreOnePair_raises_iff quiet_dish VNull) as (_ & _ & H).
    apply H. right. reflexivity.
  - destruct (scoreOnePair_raises_iff quiet_dish Sample.stubborn_wine) as (_ & H & _).
    apply H. intros (_ & _ & _ & Hw). unfold fields_convert in Hw.
    rewrite Forall_forall in Hw. destruct (Hw "body") as [n En].
    + cbn. tauto.
    + discriminate En.
  - destruct (scoreOnePair_raises_iff quiet_dish (VStr "")) as (H & _).
    apply H. split; [reflexivity|]. split; [reflexivity|].
    split; repeat constructor; eexists; reflexivity.
Defined.

Lemma calculatePairing_raises_witness :
  Engine.calculatePairing quiet_dish (VArr [quiet_wine; Sample.stubborn_wine])
  = TypeError.
Proof.
  apply (calculatePairing_raises_iff quiet_dish
           (VArr [quiet_wine; Sample.stubborn_wine])).
  split; [reflexivity|]. apply Exists_cons_tl, Exists_cons_hd. reflexivity.
Defined.

Lemma calculatePairing_top_witness :
  exists rs dropped,
    Engine.calculatePairing Sample.plain_dish (VArr Sample.cellar) = Ok rs
    /\ List.length dropped = 1%nat
    /\ forall r d, In r rs -> In d dropped ->
         JS.ge (PairingResult.score r) (PairingResult.score d) = true.
Proof.
  assert (F2 : exists results,
             Forall2 (fun wine r => Engine.scoreOnePair Sample.plain_dish wine = Ok r)
                     Sample.cellar results).
  { eexists. repeat (constructor; [reflexivity|]). constructor. }
  destruct F2 as [results F2].
  destruct (calculatePairing_top Sample.plain_dish Sample.cellar results eq_refl F2)
    as (rs & dropped & E & _ & L & H & _).
  exists rs, dropped. auto.
Defined.

Lemma calculatePairing_one_wine_witness :
  exists r, Engine.calculatePairing quiet_dish (VArr [quiet_wine]) = Ok [r]
    /\ Engine.scorePairing quiet_dish quiet_wine = Ok r.
Proof.
  eexists.
  destruct (calculatePairing_one_wine quiet_dish quiet_wine _ eq_refl eq_refl)
    as (E & H).
  split; [exact E|]. apply H. reflexivity.
Defined.

Lemma clamp_idempotent_witness :
  Engine.clamp (VNum (Int 4)) (Int 0) (Int 5) = Ok (Int 4)
  /\ Engine.clamp (VNum (Int 5)) (Int 0) (Int 5) = Ok (Int 5).
Proof.
  destruct (clamp_idempotent (VNum (Fin (19 # 2))) 0 5 4) as [H1 H2]; [lia|].
  split; [apply H1; lia|]. apply H2. reflexivity.
Defined.

Lemma clamp_monotone_witness :
  exists x y,
    Engine.clamp (VNum (Fin (-3 # 2))) (Int 0) (Int 5) = Ok (Int x)
    /\ Engine.clamp (VNum (Fin (7 # 2))) (Int 0) (Int 5) = Ok (Int y)
    /\ x <= y.
Proof.
  apply (clamp_monotone (Fin (-3 # 2)) (Fin (7 # 2)) 0 5); [lia|reflexivity].
Defined.

Lemma flavor_bridge_iff_witness :
  Engine.applyFlavorBridge Sample.curry thai_white = bridge_fired.
Proof.
  apply (flavor_bridge_iff Sample.curry thai_white).
  exists "THAI", "spicy ", " curry". split; [|reflexivity].
  right. now left.
Defined.

Lemma flavor_bridge_needs_array_witness :
  exists w, Engine.normalizeWine loose_note = Ok w
    /\ Engine.applyFlavorBridge Sample.curry w = bridge_silent.
Proof.
  eexists. split; [reflexivity|].
  apply (flavor_bridge_needs_array loose_note _ eq_refl eq_refl).
Defined.

Lemma fat_balance_iff_witness :
  Rule.delta (Engine.applyFatBalance rich_dish flat_wine) = Int (-10).
Proof.
  apply (fat_balance_iff rich_dish flat_wine 4 1 2 eq_refl eq_refl eq_refl). lia.
Defined.

Lemma sweeter_wine_witness :
  JS.le (cappedScore Sample.curry (with_sweetness Sample.hot_red (Int 0)))
        (cappedScore Sample.curry (with_sweetness Sample.hot_red (Int 2))) = true.
Proof.
  apply (sweeter_wine_scores_no_lower Sample.curry Sample.hot_red 1 0 2);
    [reflexivity|lia].
Defined.

Lemma stronger_wine_witness :
  JS.le (cappedScore Sample.curry (with_alcohol Sample.hot_red (Int 5)))
        (cappedScore Sample.curry (with_alcohol Sample.hot_red (Int 2))) = true.
Proof.
  apply (stronger_wine_scores_no_higher Sample.curry Sample.hot_red 2 5). lia.
Defined.

Lemma alcohol_of_finite_witness :
  exists w,
    Engine.normalizeWine
      (VObj [("alcohol", VNull); num_field "aromatic_intensity" 0]) = Ok w
    /\ Wine.alcohol w = Int 1 /\ Wine.aromatic_intensity w = Int 1.
Proof.
  eexists. split; [reflexivity|].
  destruct (alcohol_of_finite
              (VObj [("alcohol", VNull); num_field "aromatic_intensity" 0])
              _ (inject_Z 0) (inject_Z 0) eq_refl eq_refl eq_refl)
    as (_ & _ & Ha & Hr).
  split; [apply Ha|apply Hr]; cbn; lia.
Defined.

Lemma legacy_score_range_witness :
  exists s z, Legacy.scorePairing worst_dish worst_wine = Ok s
    /\ s = Int z /\ 5 <= z <= 75.
Proof.
  eexists.
  destruct (legacy_score_range worst_dish worst_wine _ eq_refl)
    as (lf & lw & z0 & _ & _ & _ & _ & _ & _ & z & Ez & Hz).
  exists z. split; [reflexivity|]. split; [exact Ez|exact Hz].
Defined.

Lemma legacy_scorePairing_unguarded_witness :
  Legacy.scorePairing VNull Sample.big_red = TypeError
  /\ Engine.scorePairing VNull Sample.big_red =
     Ok {| PairingResult.name := VStr "";
           PairingResult.score := Int 0;
           PairingResult.reasoning := [] |}
  /\ Legacy.scorePairing Sample.rough_dish Sample.big_red = TypeError
  /\ exists r, Engine.scorePairing Sample.rough_dish Sample.big_red = Ok r.
Proof.
  destruct (legacy_scorePairing_unguarded VNull Sample.big_red) as [H1 _].
  destruct (H1 (or_introl eq_refl)) as [L E].
  destruct (legacy_scorePairing_unguarded Sample.rough_dish Sample.big_red)
    as [_ H2].
  split; [exact L|]. split; [exact E|]. split; [apply H2; reflexivity|].
  eexists; reflexivity.
Defined.

Lemma engines_agree_witness :
  exists r, Engine.scorePairing Sample.steak Sample.big_red = Ok r
    /\ Legacy.scorePairing Sample.steak Sample.big_red = Ok (PairingResult.score r).
Proof.
  destruct (engines_agree_when_extras_silent Sample.steak Sample.big_red
              steak_n big_red_n) as (r & E & _ & H); try reflexivity.
  - intros N. apply Int_inj in N. discriminate N.
  - intros N. apply Int_inj in N. discriminate N.
  - exists r. split; [exact E|]. apply H. eexists; reflexivity.
Defined.

Lemma legacy_calculatePairing_witness :
  exists rs,
    Legacy.calculatePairing Sample.plain_dish (VArr Sample.cellar) = Ok rs
    /\ List.length rs = 4%nat.
Proof.
  assert (F2 : exists scores,
             Forall2 (fun wine s => Legacy.scorePairing Sample.plain_dish wine = Ok s)
                     Sample.cellar scores).
  { eexists. repeat (constructor; [reflexivity|]). constructor. }
  destruct F2 as [scores F2].
  destruct (legacy_calculatePairing_ranks_all Sample.plain_dish Sample.cellar
              scores F2) as (rs & E & L & _).
  exists rs. auto.
Defined.

Lemma legacy_null_food_witness :
  Legacy.calculatePairing VNull (VArr [quiet_wine]) = TypeError
  /\ Engine.calculatePairing VNull (VArr [quiet_wine]) = Ok [].
Proof.
  apply (legacy_calculatePairing_null_food VNull quiet_wine []). reflexivity.
Defined.

Lemma handler_rejects_witness :
  UI.onCalculate [Sample.steak; Sample.plain_dish] (VArr Sample.cellar) "Soup"
  = Ok (UI.Alert "Selected dish not found.").
Proof.
  apply (handler_rejects_selection
           [Sample.steak; Sample.plain_dish] (VArr Sample.cellar) "Soup").
  - discriminate.
  - repeat constructor; discriminate.
Defined.

